(** * netless-app: slide controller, scene reconciler and embedded-page relay

    A shallow embedding of
    - [packages/app-slide/src/utils/slide.ts]
      ([syncSceneWithSlide], [SlideController]), and
    - [packages/app-embedded-page/src/index.ts]
      ([setPage], [sendMagixMessage], [magixListener]),
    together with the properties of the design document that concern them.

    JavaScript numbers are modelled by [Z]: page numbers, slide counts and
    member ids are integers, and the code only compares them, takes minima
    and maxima and prints them in decimal.  Objects owned by the host (the
    whiteboard room, the window-manager context, the opaque slide renderer)
    are modelled by the calls the code makes on them, kept in order in a
    log, and by the answers they give to the queries the code asks. *)

From Stdlib Require Import ZArith Lia.
From stdpp Require Import base list list_numbers strings pretty gmap.

Local Open Scope Z_scope.

(** ** JavaScript values *)

Module Js.

(** A value that may be [undefined] or [null] ([T | null | undefined]). *)
Inductive Nullable (A : Type) : Type :=
| undefined : Nullable A
| null : Nullable A
| value (a : A) : Nullable A.
Global Arguments undefined {A}.
Global Arguments null {A}.
Global Arguments value {A} a.

(** [x == null]: loose equality with [null] holds of [null] and of
    [undefined] and of nothing else. *)
Definition eq_null {A} (x : Nullable A) : bool :=
  match x with
  | undefined | null => true
  | value _ => false
  end.

(** Values of type [unknown] / [any], as far as the code inspects them. *)
Inductive Value : Type :=
| VUndefined
| VNull
| VBool (b : bool)
| VNumber (n : Z)
| VString (s : string)
| VObject (fields : list Field)
with Field : Type :=
| field (key : string) (v : Value).

(** [v] is [undefined] or [null]: reading a property of it, or destructuring
    it, throws a [TypeError]. *)
Definition nullish (v : Value) : bool :=
  match v with
  | VUndefined | VNull => true
  | _ => false
  end.

(** [typeof v === "string"], returning the string when it is one. *)
Definition as_string (v : Value) : option string :=
  match v with
  | VString s => Some s
  | _ => None
  end.

(** Property read [v.key]; [undefined] when the property is absent. *)
Definition get (key : string) (v : Value) : Value :=
  match v with
  | VObject fields =>
      match List.find (fun '(field k _) => String.eqb k key) fields with
      | Some (field _ x) => x
      | None => VUndefined
      end
  | _ => VUndefined
  end.

(** Truthiness of a [string | undefined]: defined and not empty. *)
Definition truthy_string (s : option string) : option string :=
  match s with
  | Some EmptyString => None
  | other => other
  end.

(** [String(n)] and [`${n}`] for an integer [n]: decimal digits, with a
    leading minus sign for negative numbers.  (JavaScript prints integers
    this way up to [10^21]; page numbers stay far below.) *)
Definition Number_toString (n : Z) : string := pretty n.

(** [parts.join(sep)] on an array of strings. *)
Definition join (sep : string) (parts : list string) : string :=
  String.concat sep parts.

End Js.

(** ** The host: whiteboard room and window-manager context

    The host is not part of the repository.  It is modelled by the ordered
    log of the calls made on it and by the answer it gives to
    [scenePathType], which may depend on everything that was called before
    (so that a host that misreports [none], as the source comments say the
    SDK does, is covered). *)

Module ScenePathType.
Inductive t : Type := None | Dir | Page.

Definition eqb (a b : t) : bool :=
  match a, b with
  | None, None | Dir, Dir | Page, Page => true
  | _, _ => false
  end.

End ScenePathType.

Module Host.

Record SceneDefinition : Type := { name : string }.

(** Messages posted to the embedded page ([PostToSDKMessage]); only the
    kinds sent by the code modelled here. *)
Inductive Message : Type :=
| ReceiveMagixMessage (payload : Js.Value).

Inductive Call : Type :=
(* room *)
| RemoveScenes (path : string)
| PutScenes (path : string) (scenes : list SceneDefinition)
| SetScenePath (path : string)
| DispatchMagixEvent (channel : string) (payload : Js.Value)
(* window-manager context *)
| CreateWhiteBoardView
| ContextSetScenePath (path : string)
| UpdateAttributes (keys : list string) (v : Js.Value)
(* embedded page *)
| PostMessage (message : Message).

Record Room : Type := {
  observerId : Z;
  answers : list Call -> string -> ScenePathType.t;
  calls : list Call
}.

Definition record (c : Call) (room : Room) : Room :=
  {| observerId := observerId room;
     answers := answers room;
     calls := calls room ++ [c] |}.

Definition scenePathType (room : Room) (path : string) : ScenePathType.t :=
  answers room (calls room) path.

Definition removeScenes (path : string) : Room -> Room :=
  record (RemoveScenes path).
Definition putScenes (path : string) (scenes : list SceneDefinition) : Room -> Room :=
  record (PutScenes path scenes).
Definition setScenePath (path : string) : Room -> Room :=
  record (SetScenePath path).
Definition dispatchMagixEvent (channel : string) (payload : Js.Value) : Room -> Room :=
  record (DispatchMagixEvent channel payload).

End Host.

(** ** [packages/app-slide/src/utils/slide.ts] *)

Module Slide.
Import Host.

Definition SyncEvent : Type := Js.Value.

Record SlideState : Type := {
  currentSlideIndex : Js.Nullable Z
}.

Inductive SLIDE_EVENTS : Type :=
| slideChange
| renderStart
| renderEnd
| animateStart
| animateEnd
| mainSeqStepStart
| mainSeqStepEnd
| syncDispatch
| syncReceive
| renderError.

Global Instance SLIDE_EVENTS_eq_dec : EqDecision SLIDE_EVENTS.
Proof. solve_decision. Defined.

(** The callbacks handed to the controller by its caller. *)
Inductive Callback : Type :=
| onPageChanged
| onTransitionStart
| onTransitionEnd
| onDispatchSyncEvent.

(** What the controller registers on the renderer's emitter: a callback
    as it is, or the arrow function written for [renderError]. *)
Inductive Listener : Type :=
| callback (cb : Callback)
| renderErrorHandler.

(** The renderer, as the controller sees it: two fields it reads and the
    listeners it has registered, in registration order. *)
Record Slide : Type := {
  slideCount : Z;
  slideState : SlideState;
  listeners : list (SLIDE_EVENTS * Listener)
}.

(** [{ name: `${i}` }] *)
Definition scene_named (i : Z) : SceneDefinition :=
  {| name := Js.Number_toString i |}.

(** [for (let i = 1; i <= count; ++i) scenes.push({ name: `${i}` })].
    The loop runs at most [fuel] times. *)
Fixpoint push_scenes (fuel : nat) (i count : Z) (scenes : list SceneDefinition)
  : list SceneDefinition :=
  match fuel with
  | O => scenes
  | S fuel' =>
      if i <=? count
      then push_scenes fuel' (i + 1) count (scenes ++ [scene_named i])
      else scenes
  end.

(** The loop body runs [count] times; any larger fuel gives the same list
    ([push_scenes_fuel] below). *)
Definition scenes_of_count (count : Z) : list SceneDefinition :=
  push_scenes (Z.to_nat count) 1 count [].

Definition syncSceneWithSlide (room : Room) (slide : Slide) (baseScenePath : string) : Room :=
  match currentSlideIndex (slideState slide) with
  | Js.undefined | Js.null => room
  | Js.value page =>
      let scenePath := Js.join "/" [baseScenePath; Js.Number_toString page] in
      let room :=
        if ScenePathType.eqb (scenePathType room scenePath) ScenePathType.None
        then
          let room := removeScenes baseScenePath room in
          let count := slideCount slide in
          let scenes := scenes_of_count count in
          putScenes baseScenePath scenes room
        else room in
      setScenePath scenePath room
  end.


(** *** [SlideController] *)

(** Modelled from the spec: [clamp] is imported from [./helpers], which is
    not among the sources.  The design document gives its result as
    [max(1, min(p, slideCount))], that is, [max(min, Math.min(value, max))]
    for the call [clamp(page, 1, slideCount)]. *)
Definition clamp (value min max : Z) : Z := Z.max min (Z.min value max).

(** Everything the controller does to the outside, in order. *)
Inductive Effect : Type :=
| RenderSlide (page : Z)                            (* slide.renderSlide(page) *)
| SetSlideState (state : SlideState)                (* slide.setSlideState(state) *)
| Emit (event : SLIDE_EVENTS) (arg : Js.Value)      (* slide.emit(event, arg) *)
| DestroySlide                                      (* slide.destroy() *)
| Invoke (cb : Callback) (args : list Js.Value)     (* cb(...args) *)
| ConsoleWarn (message : string) (error : Js.Value) (* console.warn(message, error) *)
| SetTimeout (ms : Z)                               (* setTimeout(pollReadyState, ms) *)
| Uncaught (error : string).                        (* an exception thrown by a listener
                                                       leaves the controller's code *)

Record SlideController : Type := {
  slide : Slide;
  targetingPage : Z;
  (* whether the [ready] promise has been resolved *)
  readyResolved : bool;
  effects : list Effect
}.

Definition log (e : Effect) (c : SlideController) : SlideController :=
  {| slide := slide c;
     targetingPage := targetingPage c;
     readyResolved := readyResolved c;
     effects := effects c ++ [e] |}.

Definition set_targetingPage (page : Z) (c : SlideController) : SlideController :=
  {| slide := slide c;
     targetingPage := page;
     readyResolved := readyResolved c;
     effects := effects c |}.

Definition set_slide (s : Slide) (c : SlideController) : SlideController :=
  {| slide := s;
     targetingPage := targetingPage c;
     readyResolved := readyResolved c;
     effects := effects c |}.

(** [slide.on(event, listener)] *)
Definition on (event : SLIDE_EVENTS) (l : Listener) (c : SlideController) : SlideController :=
  set_slide {| slideCount := slideCount (slide c);
               slideState := slideState (slide c);
               listeners := listeners (slide c) ++ [(event, l)] |} c.

Definition renderSlide (page : Z) : SlideController -> SlideController :=
  log (RenderSlide page).

Definition setSlideState (state : SlideState) : SlideController -> SlideController :=
  log (SetSlideState state).

Definition resolveReady (c : SlideController) : SlideController :=
  {| slide := slide c;
     targetingPage := targetingPage c;
     readyResolved := true;
     effects := effects c |}.

Definition isReady (c : SlideController) : bool :=
  0 <? slideCount (slide c).

Definition pollReadyState (c : SlideController) : SlideController :=
  if isReady c then resolveReady c else log (SetTimeout 500) c.

(** How a listener, or a whole [emit], ends: it returns, or it throws, in
    both cases leaving the controller in some state. *)
Inductive Completion : Type :=
| Returns (c : SlideController)
| Throws (error : string) (c : SlideController).

(** One registered listener run on the argument of an emitted event.  The
    [renderError] handler destructures its parameter, [({ error }) => ...]:
    on an [undefined] or [null] argument that throws a [TypeError] before
    the body runs; on any other argument [error] is the property read. *)
Definition run_listener (l : Listener) (arg : Js.Value) (c : SlideController)
  : Completion :=
  match l with
  | callback cb => Returns (log (Invoke cb [arg]) c)
  | renderErrorHandler =>
      if Js.nullish arg then Throws "TypeError" c
      else
        let error := Js.get "error" arg in
        let c := log (ConsoleWarn "[Slide] render error" error) c in
        Returns (log (Invoke onTransitionEnd []) c)
  end.

(** The emitter calls the listeners of [event] in registration order; an
    exception thrown by one of them leaves [emit], and the listeners after
    it are not called. *)
Fixpoint call_listeners (ls : list (SLIDE_EVENTS * Listener))
    (event : SLIDE_EVENTS) (arg : Js.Value) (c : SlideController) : Completion :=
  match ls with
  | [] => Returns c
  | (e, l) :: ls' =>
      if decide (e = event)
      then
        match run_listener l arg c with
        | Returns c' => call_listeners ls' event arg c'
        | Throws error c' => Throws error c'
        end
      else call_listeners ls' event arg c
  end.

(** [slide.emit(event, arg)] as far as the controller's listeners go. *)
Definition emit (event : SLIDE_EVENTS) (arg : Js.Value) (c : SlideController)
  : Completion :=
  call_listeners (listeners (slide c)) event arg c.

(** The controller after an [emit]: an exception that left the listeners
    is caught by nothing in the controller. *)
Definition settle (k : Completion) : SlideController :=
  match k with
  | Returns c => c
  | Throws error c => log (Uncaught error) c
  end.

Definition dispatch (event : SLIDE_EVENTS) (arg : Js.Value) (c : SlideController)
  : SlideController :=
  settle (emit event arg c).

(** [new SlideController(slide, ..., initialState, initialPage)].  The field
    initialiser [targetingPage = -1] runs before the constructor body. *)
Definition new_SlideController
    (slide : Slide) (initialState : option SlideState) (initialPage : Z)
  : SlideController :=
  let c := {| slide := slide; targetingPage := -1;
              readyResolved := false; effects := [] |} in
  let c := on slideChange (callback onPageChanged) c in
  let c := on renderStart (callback onTransitionStart) c in
  let c := on renderEnd (callback onTransitionEnd) c in
  let c := on mainSeqStepStart (callback onTransitionStart) c in
  let c := on mainSeqStepEnd (callback onTransitionEnd) c in
  let c := on syncDispatch (callback onDispatchSyncEvent) c in
  let c := on renderError renderErrorHandler c in
  let c :=
    match initialState with
    | Some state => setSlideState state c
    | None => renderSlide initialPage c
    end in
  pollReadyState c.

Definition receiveSyncEvent (event : SyncEvent) (c : SlideController) : SlideController :=
  dispatch syncReceive event (log (Emit syncReceive event) c).

Definition jumpToPage (page : Z) (c : SlideController) : SlideController :=
  if negb (isReady c) then c
  else
    let page := clamp page 1 (slideCount (slide c)) in
    if page =? targetingPage c then c
    else
      let c := set_targetingPage page c in
      renderSlide page c.

Definition destroy : SlideController -> SlideController :=
  log DestroySlide.

(** *** What can happen to a mounted controller

    Calls from the application, events emitted by the renderer, the
    renderer changing the fields the controller reads, and the polling
    timer. *)
Inductive Input : Type :=
| CallJumpToPage (page : Z)
| CallReceiveSyncEvent (event : SyncEvent)
| CallDestroy
| SlideEmits (event : SLIDE_EVENTS) (arg : Js.Value)
| SlideLoads (count : Z)
| SlideMoves (state : SlideState)
| TimerFires.

Definition step (c : SlideController) (i : Input) : SlideController :=
  match i with
  | CallJumpToPage page => jumpToPage page c
  | CallReceiveSyncEvent event => receiveSyncEvent event c
  | CallDestroy => destroy c
  | SlideEmits event arg => dispatch event arg c
  | SlideLoads count =>
      set_slide {| slideCount := count;
                   slideState := slideState (slide c);
                   listeners := listeners (slide c) |} c
  | SlideMoves state =>
      set_slide {| slideCount := slideCount (slide c);
                   slideState := state;
                   listeners := listeners (slide c) |} c
  | TimerFires => pollReadyState c
  end.

Definition run (c : SlideController) (inputs : list Input) : SlideController :=
  fold_left step inputs c.

(** The pages passed to [renderSlide], in order. *)
Definition rendered (effs : list Effect) : list Z :=
  omap (fun e => match e with RenderSlide p => Some p | _ => None end) effs.

(** Modelled from the spec: the [Idle]/[Transitioning] state of the
    navigation machine is kept by the caller behind [onTransitionStart] and
    [onTransitionEnd], which are not among the sources.  By the transition
    table of the design document the machine is [Transitioning] from a
    transition start to the next transition end and [Idle] otherwise. *)
Inductive NavState : Type := Idle | Transitioning.

(** Modelled from the spec: the transition of the navigation machine on one
    effect ([onTransitionStart] enters [Transitioning], [onTransitionEnd]
    returns to [Idle]). *)
Definition nav_after (st : NavState) (e : Effect) : NavState :=
  match e with
  | Invoke onTransitionStart _ => Transitioning
  | Invoke onTransitionEnd _ => Idle
  | _ => st
  end.

(** Modelled from the spec: the state of the navigation machine after the
    effects [effs], starting [Idle]. *)
Definition navState (effs : list Effect) : NavState :=
  fold_left nav_after effs Idle.

(** [c'] differs from [c] by nothing the navigation depends on: same deck
    size, same listeners, same target, same pages sent to the renderer. *)
Definition quiet (c c' : SlideController) : Prop :=
  slideCount (slide c') = slideCount (slide c)
  /\ listeners (slide c') = listeners (slide c)
  /\ targetingPage c' = targetingPage c
  /\ rendered (effects c') = rendered (effects c).

(** The listeners in place once the constructor has run on a renderer that
    had none. *)
Definition registered : list (SLIDE_EVENTS * Listener) :=
  [ (slideChange, callback onPageChanged);
    (renderStart, callback onTransitionStart);
    (renderEnd, callback onTransitionEnd);
    (mainSeqStepStart, callback onTransitionStart);
    (mainSeqStepEnd, callback onTransitionEnd);
    (syncDispatch, callback onDispatchSyncEvent);
    (renderError, renderErrorHandler) ].

(** Inputs that come from the renderer or the timer, not from the
    application. *)
Definition from_renderer (i : Input) : bool :=
  match i with
  | SlideEmits _ _ | SlideMoves _ | TimerFires => true
  | _ => false
  end.

Definition is_jump (i : Input) : bool :=
  match i with
  | CallJumpToPage _ => true
  | _ => false
  end.

(** Inputs under which a deck of [count] slides keeps its size and every
    navigation request clamps to [target]. *)
Definition keeps_target (count target : Z) (i : Input) : bool :=
  match i with
  | CallJumpToPage page => clamp page 1 count =? target
  | SlideLoads n => n =? count
  | _ => true
  end.

(** *** [createDocsViewerPages] *)

(** A page of the document viewer ([DocsViewerPage]). *)
Record DocsViewerPage : Type := {
  page_width : Z;
  page_height : Z;
  thumbnail : string;
  src : string
}.

(** The renderer with the further fields [createDocsViewerPages]
    destructures from it: [width], [height] and, from its [slideState],
    [taskId] and [url]. *)
Record SlideResource : Type := {
  renderer : Slide;
  width : Z;
  height : Z;
  taskId : string;
  url : string
}.

(** [{ width, height, thumbnail: `${url}/${taskId}/preview/${i}.png`, src: "ppt" }] *)
Definition preview_page (s : SlideResource) (i : Z) : DocsViewerPage :=
  {| page_width := width s;
     page_height := height s;
     thumbnail := url s +:+ "/" +:+ taskId s +:+ "/preview/"
                  +:+ Js.Number_toString i +:+ ".png";
     src := "ppt" |}.

(** [for (let i = 1; i <= slideCount; ++i) pages.push(...)], at most [fuel]
    iterations. *)
Fixpoint push_pages (fuel : nat) (s : SlideResource) (i : Z) (pages : list DocsViewerPage)
  : list DocsViewerPage :=
  match fuel with
  | O => pages
  | S fuel' =>
      if i <=? slideCount (renderer s)
      then push_pages fuel' s (i + 1) (pages ++ [preview_page s i])
      else pages
  end.

Definition createDocsViewerPages (s : SlideResource) : list DocsViewerPage :=
  push_pages (Z.to_nat (slideCount (renderer s))) s 1 [].

(** *** Bookkeeping used to state properties of whole runs *)

(** The requested pages of the navigation requests among [inputs]. *)
Definition requested (inputs : list Input) : list Z :=
  omap (fun i => match i with CallJumpToPage p => Some p | _ => None end) inputs.

(** [pages] without the entries equal to their predecessor, [prev] being
    the predecessor of the first. *)
Fixpoint collapse (prev : Z) (pages : list Z) : list Z :=
  match pages with
  | [] => []
  | p :: rest => if p =? prev then collapse prev rest else p :: collapse p rest
  end.

(** No two neighbours of the list are equal. *)
Fixpoint no_stutter (pages : list Z) : Prop :=
  match pages with
  | p :: (q :: _) as rest => p <> q /\ no_stutter rest
  | _ => True
  end.

(** The number of [setTimeout] calls among the effects. *)
Definition timers_set (effs : list Effect) : nat :=
  length (List.filter (fun e => match e with SetTimeout _ => true | _ => false end) effs).

(** A run in which timers behave as timers: [pending] counts the timeouts
    set and not yet fired, and [TimerFires] is only possible when one is
    pending.  The result is [None] when the inputs ask a timer to fire that
    was never set. *)
Fixpoint run_timed (c : SlideController) (pending : nat) (inputs : list Input)
  : option (SlideController * nat) :=
  match inputs with
  | [] => Some (c, pending)
  | i :: rest =>
      let c' := step c i in
      let set := (timers_set (effects c') - timers_set (effects c))%nat in
      match i, pending with
      | TimerFires, O => None
      | TimerFires, S p => run_timed c' (p + set)%nat rest
      | _, _ => run_timed c' (pending + set)%nat rest
      end
  end.

(** A freshly constructed controller together with its pending timers. *)
Definition mount_timed
    (slide0 : Slide) (initialState : option SlideState) (initialPage : Z)
    (inputs : list Input) : option (SlideController * nat) :=
  let c := new_SlideController slide0 initialState initialPage in
  run_timed c (timers_set (effects c)) inputs.

End Slide.

(** ** [packages/app-embedded-page/src/index.ts] *)

Module EmbeddedPage.
Import Host.

(** A broadcast event as delivered by the room ([Event] of the SDK). *)
Record Event : Type := {
  event : string;
  authorId : Z;
  payload : Js.Value
}.

(** The state closed over by [setup(context)]: what the code reads from
    [context] and [displayer], and the local variable [whiteboard].
    [room] is [undefined] when the displayer is a replay player. *)
Record App : Type := {
  appId : string;
  isWritable : bool;
  getInitScenePath : option string;
  displayer : Room;
  room_defined : bool;
  (* [whiteboard] has been created *)
  whiteboard : bool
}.

Definition on_host (f : Room -> Room) (app : App) : App :=
  {| appId := appId app;
     isWritable := isWritable app;
     getInitScenePath := getInitScenePath app;
     displayer := f (displayer app);
     room_defined := room_defined app;
     whiteboard := whiteboard app |}.

(** [whiteboard ||= context.createWhiteBoardView()] *)
Definition ensure_whiteboard (app : App) : App :=
  if whiteboard app then app
  else
    let app := on_host (record CreateWhiteBoardView) app in
    {| appId := appId app;
       isWritable := isWritable app;
       getInitScenePath := getInitScenePath app;
       displayer := displayer app;
       room_defined := room_defined app;
       whiteboard := true |}.

Definition postMessage (message : Message) : App -> App :=
  on_host (record (PostMessage message)).

Definition setPage (page : Js.Value) (app : App) : App :=
  let app := ensure_whiteboard app in
  let scenePath := getInitScenePath app in
  match Js.as_string page, isWritable app, Js.truthy_string scenePath, room_defined app with
  | Some page, true, Some scenePath, true =>
      let fullScenePath := Js.join "/" [scenePath; page] in
      let app :=
        if ScenePathType.eqb (scenePathType (displayer app) fullScenePath) ScenePathType.None
        then on_host (putScenes scenePath [{| name := page |}]) app
        else app in
      let app := on_host (record (ContextSetScenePath fullScenePath)) app in
      on_host (record (UpdateAttributes ["page"] (Js.VString page))) app
  | _, _, _, _ => app
  end.

Definition magixEventChannel (app : App) : string :=
  "channel-" +:+ appId app.

Definition sendMagixMessage (message : Js.Value) (app : App) : App :=
  if isWritable app && room_defined app
  then on_host (dispatchMagixEvent (magixEventChannel app) message) app
  else app.

Definition magixListener (e : Event) (app : App) : App :=
  if String.eqb (event e) (magixEventChannel app)
     && negb (authorId e =? observerId (displayer app))
  then postMessage (ReceiveMagixMessage (payload e)) app
  else app.

(** The messages posted to the embedded page, in order. *)
Definition posted (app : App) : list Message :=
  omap (fun c => match c with PostMessage m => Some m | _ => None end)
       (calls (displayer app)).

(** *** App store *)

Definition mainStoreId : string := "state".

(** [Object.keys(o)] of an object whose fields are listed in enumeration
    order. *)
Definition object_keys (o : Js.Value) : list string :=
  match o with
  | Js.VObject fields => (fun '(Js.field k _) => k) <$> fields
  | _ => []
  end.

Section WithIsObj.

(** [isObj] is imported from [./utils], which is not among the sources; it
    is a type guard for objects and is left as a parameter. *)
Variable isObj : Js.Value -> bool.

(** The body of the [forEach] in [setStore], for one key. *)
Definition setStore_key (payload : Js.Value) (app : App) (id : string) : App :=
  if negb (String.eqb id mainStoreId)
  then
    let state := Js.get id payload in
    on_host (record (UpdateAttributes ["store"; id] state)) app
  else app.

Definition setStore (payload : Js.Value) (app : App) : App :=
  if isObj payload
  then fold_left (setStore_key payload) (object_keys payload) app
  else app.

End WithIsObj.

(** The attribute writes among the calls, in order. *)
Definition attribute_writes (app : App) : list (list string * Js.Value) :=
  omap (fun c => match c with UpdateAttributes keys v => Some (keys, v) | _ => None end)
       (calls (displayer app)).

(** How often [context.createWhiteBoardView()] was called. *)
Definition whiteboard_views (app : App) : nat :=
  length (List.filter (fun c => match c with CreateWhiteBoardView => true | _ => false end)
                      (calls (displayer app))).

(** [SetPage] messages handled one after the other. *)
Definition setPages (pages : list Js.Value) (app : App) : App :=
  fold_left (fun app page => setPage page app) pages app.

End EmbeddedPage.

(** ** The viewer chrome: class [Viewer] of [slide.ts]

    The DOM is modelled by what the class reads and writes of it: the class
    lists of [$content] and [$footer], the value and the [disabled] flag of
    [$pageNumberInput], and the selector query on [$preview].  The state is
    the one of a constructed viewer, whose elements exist. *)

Module Viewer.

Record ViewerPage : Type := {
  src : string;
  height : Z;
  width : Z;
  thumbnail : option string
}.

(** A page index: an integer, or [NaN], which the code tests for. *)
Inductive number : Type :=
| NaN
| Int (n : Z).

Definition isNaN (x : number) : bool :=
  match x with NaN => true | Int _ => false end.

(** [x + k] for an integer constant [k]. *)
Definition plus (x : number) (k : Z) : number :=
  match x with NaN => NaN | Int n => Int (n + k) end.

(** [String(x)] *)
Definition String_of (x : number) : string :=
  match x with NaN => "NaN" | Int n => Js.Number_toString n end.

(** The argument handed to [onNewPageIndex]: a number the viewer holds, or
    [Number(text) + offset] for a text read from the DOM. *)
Inductive PageRequest : Type :=
| Index (x : number)
| Parsed (text : string) (offset : Z).

Inductive Effect : Type :=
| NewPageIndex (request : PageRequest)  (* onNewPageIndex(request) *)
| PreventDefault                        (* ev.preventDefault() *)
| StopPropagation                       (* ev.stopPropagation() *)
| StopImmediatePropagation              (* ev.stopImmediatePropagation() *)
| ScrollPreviewTo (className : string). (* $preview.scrollTo({ top: offsetTop - 16 })
                                           for the element of that class *)

Record Viewer : Type := {
  isWritable : bool;
  pages : list ViewerPage;
  pageIndex : number;
  isShowPreview : bool;
  content_classList : gset string;
  footer_classList : gset string;
  pageNumberInput_value : string;
  pageNumberInput_disabled : bool;
  effects : list Effect
}.

Definition wrapClassName (className : string) : string :=
  "netless-app-docs-viewer-" +:+ className.

(** [classList.toggle(name, force)] *)
Definition classList_toggle (name : string) (force : bool) (classes : gset string)
  : gset string :=
  if force then classes ∪ {[name]} else classes ∖ {[name]}.

(** The classes [wrapClassName(`preview-page-${i}`)] given to the thumbnails
    by [renderPreview], [i] running over the indices of [pages]. *)
Definition preview_page_classes (v : Viewer) : list string :=
  (fun i => wrapClassName ("preview-page-" +:+ Js.Number_toString i))
  <$> seqZ 0 (Z.of_nat (length (pages v))).

(** [new Viewer({ isWritable, box, pages, onNewPageIndex })]: throws on an
    empty list of pages, otherwise renders content and footer. *)
Definition new_Viewer (isWritable : bool) (pages : list ViewerPage) : string + Viewer :=
  if (length pages <=? 0)%nat
  then inl "[DocsViewer] Empty pages."
  else
    let readonly : gset string :=
      if negb isWritable then {[wrapClassName "readonly"]} else ∅ in
    inr {| isWritable := isWritable;
           pages := pages;
           pageIndex := Int 0;
           isShowPreview := false;
           content_classList := {[wrapClassName "content"]} ∪ readonly;
           footer_classList := {[wrapClassName "footer"]} ∪ readonly;
           pageNumberInput_value := String_of (plus (Int 0) 1);
           pageNumberInput_disabled := if negb isWritable then true else false;
           effects := [] |}.

Definition log (e : Effect) (v : Viewer) : Viewer :=
  {| isWritable := isWritable v;
     pages := pages v;
     pageIndex := pageIndex v;
     isShowPreview := isShowPreview v;
     content_classList := content_classList v;
     footer_classList := footer_classList v;
     pageNumberInput_value := pageNumberInput_value v;
     pageNumberInput_disabled := pageNumberInput_disabled v;
     effects := effects v ++ [e] |}.

Definition onNewPageIndex (request : PageRequest) : Viewer -> Viewer :=
  log (NewPageIndex request).

Definition setWritable (writable : bool) (v : Viewer) : Viewer :=
  if negb (Bool.eqb (isWritable v) writable)
  then
    {| isWritable := writable;
       pages := pages v;
       pageIndex := pageIndex v;
       isShowPreview := isShowPreview v;
       content_classList :=
         classList_toggle (wrapClassName "readonly") (negb writable) (content_classList v);
       footer_classList :=
         classList_toggle (wrapClassName "readonly") (negb writable) (footer_classList v);
       pageNumberInput_value := pageNumberInput_value v;
       pageNumberInput_disabled := negb writable;
       effects := effects v |}
  else v.

Definition setPageIndex (index : number) (v : Viewer) : Viewer :=
  if negb (isNaN index)
  then
    {| isWritable := isWritable v;
       pages := pages v;
       pageIndex := index;
       isShowPreview := isShowPreview v;
       content_classList := content_classList v;
       footer_classList := footer_classList v;
       pageNumberInput_value := String_of (plus index 1);
       pageNumberInput_disabled := pageNumberInput_disabled v;
       effects := effects v |}
  else v.

(** [togglePreview(isShowPreview?)] *)
Definition togglePreview (show : option bool) (v : Viewer) : Viewer :=
  let show := match show with Some b => b | None => negb (isShowPreview v) end in
  let v :=
    {| isWritable := isWritable v;
       pages := pages v;
       pageIndex := pageIndex v;
       isShowPreview := show;
       content_classList :=
         classList_toggle (wrapClassName "preview-active") show (content_classList v);
       footer_classList := footer_classList v;
       pageNumberInput_value := pageNumberInput_value v;
       pageNumberInput_disabled := pageNumberInput_disabled v;
       effects := effects v |} in
  if isShowPreview v
  then
    let className := wrapClassName ("preview-page-" +:+ String_of (pageIndex v)) in
    if bool_decide (className ∈ preview_page_classes v)
    then log (ScrollPreviewTo className) v
    else v
  else v.

(** The click listener of [$preview]; [dataset_pageIndex] is
    [ev.target.dataset?.pageIndex]. *)
Definition on_preview_click (dataset_pageIndex : option string) (v : Viewer) : Viewer :=
  if negb (isWritable v) then v
  else
    match Js.truthy_string dataset_pageIndex with
    | Some pageIndex =>
        let v := log PreventDefault v in
        let v := log StopPropagation v in
        let v := log StopImmediatePropagation v in
        onNewPageIndex (Parsed pageIndex 0) v
    | None => v
    end.

(** The click listener of [$previewMask]; [on_mask] is
    [ev.target === this.$previewMask]. *)
Definition on_previewMask_click (on_mask : bool) (v : Viewer) : Viewer :=
  if negb (isWritable v) then v
  else if on_mask then togglePreview (Some false) v else v.

Definition on_btnSidebar_click (v : Viewer) : Viewer :=
  if negb (isWritable v) then v else togglePreview None v.

Definition on_btnPageBack_click (v : Viewer) : Viewer :=
  if negb (isWritable v) then v
  else onNewPageIndex (Index (plus (pageIndex v) (-1))) v.

Definition on_btnPageNext_click (v : Viewer) : Viewer :=
  if negb (isWritable v) then v
  else onNewPageIndex (Index (plus (pageIndex v) 1)) v.

(** The change listener of [$pageNumberInput]. *)
Definition on_pageNumberInput_change (v : Viewer) : Viewer :=
  if negb (isWritable v) then v
  else
    match Js.truthy_string (Some (pageNumberInput_value v)) with
    | Some text => onNewPageIndex (Parsed text (-1)) v
    | None => v
    end.

(** The user edits the page number: a disabled input cannot be edited;
    otherwise the browser stores the text and fires [change]. *)
Definition user_edits_pageNumber (text : string) (v : Viewer) : Viewer :=
  if pageNumberInput_disabled v then v
  else
    on_pageNumberInput_change
      {| isWritable := isWritable v;
         pages := pages v;
         pageIndex := pageIndex v;
         isShowPreview := isShowPreview v;
         content_classList := content_classList v;
         footer_classList := footer_classList v;
         pageNumberInput_value := text;
         pageNumberInput_disabled := pageNumberInput_disabled v;
         effects := effects v |}.

(** What can happen to a viewer: calls of its methods by the application
    and events from the user. *)
Inductive Op : Type :=
| SetWritable (writable : bool)
| SetPageIndex (index : number)
| ClickPreview (dataset_pageIndex : option string)
| ClickPreviewMask (on_mask : bool)
| ClickSidebar
| ClickPageBack
| ClickPageNext
| EditPageNumber (text : string).

Definition step (v : Viewer) (op : Op) : Viewer :=
  match op with
  | SetWritable writable => setWritable writable v
  | SetPageIndex index => setPageIndex index v
  | ClickPreview dataset_pageIndex => on_preview_click dataset_pageIndex v
  | ClickPreviewMask on_mask => on_previewMask_click on_mask v
  | ClickSidebar => on_btnSidebar_click v
  | ClickPageBack => on_btnPageBack_click v
  | ClickPageNext => on_btnPageNext_click v
  | EditPageNumber text => user_edits_pageNumber text v
  end.

Definition run (v : Viewer) (ops : list Op) : Viewer :=
  fold_left step ops v.

Definition from_user (op : Op) : bool :=
  match op with
  | SetWritable _ | SetPageIndex _ => false
  | _ => true
  end.

(** The indices accepted by [setPageIndex] among [ops], in order. *)
Definition indices_set (ops : list Op) : list number :=
  omap (fun op => match op with
                  | SetPageIndex index => if isNaN index then None else Some index
                  | _ => None
                  end) ops.

(** The chrome agrees with the state: the [readonly] class of content and
    footer and the [disabled] flag of the input are there exactly when the
    viewer is not writable, the [preview-active] class exactly when the
    preview is shown, and the page index is a number. *)
Definition consistent (v : Viewer) : Prop :=
  (wrapClassName "readonly" ∈ content_classList v <-> isWritable v = false)
  /\ (wrapClassName "readonly" ∈ footer_classList v <-> isWritable v = false)
  /\ pageNumberInput_disabled v = negb (isWritable v)
  /\ (wrapClassName "preview-active" ∈ content_classList v <-> isShowPreview v = true)
  /\ wrapClassName "content" ∈ content_classList v
  /\ wrapClassName "footer" ∈ footer_classList v
  /\ isNaN (pageIndex v) = false.

End Viewer.

(** ** Sample inputs, used to run the definitions *)

Module Samples.
Import Host.

(** A room in which no scene exists yet. *)
Definition empty_room : Room :=
  {| observerId := 7;
     answers := fun _ _ => ScenePathType.None;
     calls := [] |}.

(** A room that reports every path as an existing page. *)
Definition full_room : Room :=
  {| observerId := 7;
     answers := fun _ _ => ScenePathType.Page;
     calls := [] |}.

(** A renderer with [count] slides showing page [index]. *)
Definition deck (count : Z) (index : Js.Nullable Z) : Slide.Slide :=
  {| Slide.slideCount := count;
     Slide.slideState := {| Slide.currentSlideIndex := index |};
     Slide.listeners := [] |}.

(** A controller mounted on a deck of [count] slides, no initial state,
    initial page 1. *)
Definition mounted (count : Z) : Slide.SlideController :=
  Slide.new_SlideController (deck count (Js.value 1)) None 1.

(** An embedded page ["app-1"] in a live room, observed by member 7. *)
Definition page_app (writable : bool) (initScenePath : option string)
  : EmbeddedPage.App :=
  {| EmbeddedPage.appId := "app-1";
     EmbeddedPage.isWritable := writable;
     EmbeddedPage.getInitScenePath := initScenePath;
     EmbeddedPage.displayer := empty_room;
     EmbeddedPage.room_defined := true;
     EmbeddedPage.whiteboard := false |}.

Definition magix_event (author : Z) : EmbeddedPage.Event :=
  {| EmbeddedPage.event := "channel-app-1";
     EmbeddedPage.authorId := author;
     EmbeddedPage.payload := Js.VString "sync" |}.

(** The deck of [count] slides of conversion task ["t1"]. *)
Definition resource (count : Z) : Slide.SlideResource :=
  {| Slide.renderer := deck count (Js.value 1);
     Slide.width := 1280;
     Slide.height := 720;
     Slide.taskId := "t1";
     Slide.url := "https://cdn" |}.

(** A viewer of a two-page document, as its constructor builds it. *)
Definition two_pages : list Viewer.ViewerPage :=
  [ {| Viewer.src := "1.png"; Viewer.height := 720; Viewer.width := 1280;
       Viewer.thumbnail := None |};
    {| Viewer.src := "2.png"; Viewer.height := 720; Viewer.width := 1280;
       Viewer.thumbnail := Some "2-small.png" |} ].

Definition viewer (writable : bool) : Viewer.Viewer :=
  match Viewer.new_Viewer writable two_pages with
  | inr v => v
  | inl _ =>
      {| Viewer.isWritable := writable; Viewer.pages := [];
         Viewer.pageIndex := Viewer.NaN; Viewer.isShowPreview := false;
         Viewer.content_classList := ∅; Viewer.footer_classList := ∅;
         Viewer.pageNumberInput_value := ""; Viewer.pageNumberInput_disabled := false;
         Viewer.effects := [] |}
  end.

End Samples.

(** * Properties *)

(** ** The scene reconciler *)

Module SceneReconciler.
Import Host Slide.

Lemma ScenePathType_eqb_eq (a b : ScenePathType.t) :
  ScenePathType.eqb a b = true <-> a = b.
Proof. destruct a, b; simpl; split; congruence. Qed.

Lemma ScenePathType_eqb_neq (a b : ScenePathType.t) :
  ScenePathType.eqb a b = false <-> a <> b.
Proof. destruct a, b; simpl; split; congruence. Qed.

(** The loop started at [i] with [scenes] collected so far appends the
    scenes named [i], [i+1], ..., [count], provided the fuel covers the
    remaining iterations. *)
Lemma push_scenes_seqZ (fuel : nat) :
  forall (i count : Z) (scenes : list SceneDefinition),
    (Z.to_nat (count - i + 1) <= fuel)%nat ->
    push_scenes fuel i count scenes
    = scenes ++ (scene_named <$> seqZ i (count - i + 1)).
Proof.
  induction fuel as [|fuel IH]; intros i count scenes Hfuel; simpl.
  - rewrite seqZ_nil by lia. by rewrite app_nil_r.
  - destruct (Z.leb_spec i count) as [Hle|Hgt].
    + rewrite IH by lia.
      rewrite (seqZ_cons i) by lia.
      replace (count - (i + 1) + 1) with (Z.pred (count - i + 1)) by lia.
      by rewrite <- app_assoc.
    + rewrite seqZ_nil by lia. by rewrite app_nil_r.
Qed.

(** Termination of the loop: every fuel from [count] on gives the list the
    definition computes. *)
Lemma push_scenes_fuel (fuel : nat) (count : Z) :
  (Z.to_nat count <= fuel)%nat ->
  push_scenes fuel 1 count [] = scenes_of_count count.
Proof.
  intros Hfuel. unfold scenes_of_count.
  rewrite !push_scenes_seqZ by lia. done.
Qed.

Lemma scenes_of_count_seqZ (count : Z) :
  scenes_of_count count = scene_named <$> seqZ 1 count.
Proof.
  unfold scenes_of_count. rewrite push_scenes_seqZ by lia.
  simpl. by replace (count - 1 + 1) with count by lia.
Qed.

Lemma scenes_of_count_length (count : Z) :
  length (scenes_of_count count) = Z.to_nat count.
Proof. by rewrite scenes_of_count_seqZ, length_fmap, length_seqZ. Qed.

Lemma scenes_of_count_lookup (count i : Z) :
  1 <= i <= count ->
  scenes_of_count count !! Z.to_nat (i - 1) = Some (scene_named i).
Proof.
  intros Hi. rewrite scenes_of_count_seqZ, list_lookup_fmap.
  rewrite lookup_seqZ_lt by lia. simpl.
  by replace (1 + Z.of_nat (Z.to_nat (i - 1))) with i by lia.
Qed.

(** The names are pairwise different: no page gets two scenes. *)
Lemma scenes_of_count_NoDup (count : Z) :
  NoDup (name <$> scenes_of_count count).
Proof.
  rewrite scenes_of_count_seqZ, <- list_fmap_compose.
  apply (NoDup_fmap_2 _), NoDup_seqZ.
Qed.

Lemma join_path (base leaf : string) :
  Js.join "/" [base; leaf] = base +:+ "/" +:+ leaf.
Proof. reflexivity. Qed.

(** C2 -- scene repair is all-or-nothing.  With [slideCount = N] and current
    page [k]: when the room reports [basePath/k] as [none], the calls made
    are, in this order, [removeScenes(basePath)], one [putScenes(basePath, _)]
    with exactly [N] scenes named ["1"] to ["N"], and
    [setScenePath(basePath/k)]; when it reports anything else the only call
    is [setScenePath(basePath/k)]. *)
Theorem syncSceneWithSlide_all_or_nothing
    (room : Room) (slide : Slide) (basePath : string) (k : Z) :
  currentSlideIndex (slideState slide) = Js.value k ->
  let N := slideCount slide in
  let scenePath := basePath +:+ "/" +:+ Js.Number_toString k in
  let room' := syncSceneWithSlide room slide basePath in
  (scenePathType room scenePath = ScenePathType.None ->
   exists scenes : list SceneDefinition,
     calls room' = calls room ++ [RemoveScenes basePath;
                                  PutScenes basePath scenes;
                                  SetScenePath scenePath]
     /\ length scenes = Z.to_nat N
     /\ (forall i : Z, 1 <= i <= N ->
           scenes !! Z.to_nat (i - 1) = Some {| name := Js.Number_toString i |})
     /\ NoDup (name <$> scenes))
  /\ (scenePathType room scenePath <> ScenePathType.None ->
      calls room' = calls room ++ [SetScenePath scenePath]).
Proof.
  intros Hpage N scenePath room'. subst room'.
  unfold syncSceneWithSlide. rewrite Hpage, join_path. fold scenePath.
  split.
  - intros Hnone. rewrite Hnone. simpl.
    exists (scenes_of_count N). split; [|split; [|split]].
    + by rewrite <- !app_assoc.
    + apply scenes_of_count_length.
    + intros i Hi. by apply scenes_of_count_lookup.
    + apply scenes_of_count_NoDup.
  - intros Hsome. apply ScenePathType_eqb_neq in Hsome.
    by rewrite Hsome.
Qed.

Lemma syncSceneWithSlide_all_or_nothing_witness :
  (exists scenes : list SceneDefinition,
     calls (syncSceneWithSlide Samples.empty_room (Samples.deck 3 (Js.value 2)) "/ppt")
     = [RemoveScenes "/ppt"; PutScenes "/ppt" scenes; SetScenePath "/ppt/2"]
     /\ length scenes = 3%nat
     /\ (forall i : Z, 1 <= i <= 3 ->
           scenes !! Z.to_nat (i - 1) = Some {| name := Js.Number_toString i |})
     /\ NoDup (name <$> scenes))
  /\ calls (syncSceneWithSlide Samples.full_room (Samples.deck 3 (Js.value 2)) "/ppt")
    = [SetScenePath "/ppt/2"].
Proof.
  split.
  - apply (proj1 (syncSceneWithSlide_all_or_nothing
                    Samples.empty_room (Samples.deck 3 (Js.value 2)) "/ppt" 2 eq_refl)).
    reflexivity.
  - apply (proj2 (syncSceneWithSlide_all_or_nothing
                    Samples.full_room (Samples.deck 3 (Js.value 2)) "/ppt" 2 eq_refl)).
    discriminate.
Defined.

(** The repair computed on that deck. *)
Example syncSceneWithSlide_repair_run :
  calls (syncSceneWithSlide Samples.empty_room (Samples.deck 3 (Js.value 2)) "/ppt")
  = [RemoveScenes "/ppt";
     PutScenes "/ppt" [{| name := "1" |}; {| name := "2" |}; {| name := "3" |}];
     SetScenePath "/ppt/2"].
Proof. reflexivity. Qed.

(** C8 -- when [currentSlideIndex] is [null] or [undefined] the room is
    left exactly as it was: no call at all is made on it. *)
Theorem syncSceneWithSlide_unset_page
    (room : Room) (slide : Slide) (basePath : string) :
  Js.eq_null (currentSlideIndex (slideState slide)) = true ->
  syncSceneWithSlide room slide basePath = room.
Proof.
  unfold syncSceneWithSlide.
  by destruct (currentSlideIndex (slideState slide)).
Qed.

Lemma syncSceneWithSlide_unset_page_witness :
  syncSceneWithSlide Samples.empty_room (Samples.deck 3 Js.null) "/ppt"
  = Samples.empty_room
  /\ syncSceneWithSlide Samples.empty_room (Samples.deck 3 Js.undefined) "/ppt"
    = Samples.empty_room.
Proof.
  split.
  - apply (syncSceneWithSlide_unset_page Samples.empty_room (Samples.deck 3 Js.null)).
    reflexivity.
  - apply (syncSceneWithSlide_unset_page Samples.empty_room (Samples.deck 3 Js.undefined)).
    reflexivity.
Defined.

End SceneReconciler.

(** ** The navigation state machine *)

Module Navigation.
Import Slide.

Lemma clamp_range (p count : Z) :
  0 < count -> 1 <= clamp p 1 count <= count.
Proof. unfold clamp. lia. Qed.

Lemma clamp_in_range (p count : Z) :
  1 <= p <= count -> clamp p 1 count = p.
Proof. unfold clamp. lia. Qed.

Lemma isReady_true (c : SlideController) :
  isReady c = true <-> 0 < slideCount (slide c).
Proof. unfold isReady. apply Z.ltb_lt. Qed.

Lemma isReady_false (c : SlideController) :
  isReady c = false <-> slideCount (slide c) <= 0.
Proof. unfold isReady. rewrite Z.ltb_ge. done. Qed.

(** The three ways through [jumpToPage]. *)
Lemma jumpToPage_not_ready (p : Z) (c : SlideController) :
  isReady c = false -> jumpToPage p c = c.
Proof. unfold jumpToPage. by intros ->. Qed.

Lemma jumpToPage_same_target (p : Z) (c : SlideController) :
  clamp p 1 (slideCount (slide c)) = targetingPage c -> jumpToPage p c = c.
Proof.
  unfold jumpToPage. intros ->. rewrite Z.eqb_refl.
  by destruct (isReady c).
Qed.

Lemma jumpToPage_new_target (p : Z) (c : SlideController) :
  isReady c = true ->
  clamp p 1 (slideCount (slide c)) <> targetingPage c ->
  jumpToPage p c
  = renderSlide (clamp p 1 (slideCount (slide c)))
      (set_targetingPage (clamp p 1 (slideCount (slide c))) c).
Proof.
  unfold jumpToPage. intros -> Hne. simpl.
  apply Z.eqb_neq in Hne. by rewrite Hne.
Qed.

Lemma jumpToPage_slide (p : Z) (c : SlideController) :
  slide (jumpToPage p c) = slide c.
Proof.
  unfold jumpToPage.
  destruct (isReady c); simpl; [|done].
  by destruct (_ =? _).
Qed.

Lemma jumpToPage_targetingPage (p : Z) (c : SlideController) :
  isReady c = true ->
  targetingPage (jumpToPage p c) = clamp p 1 (slideCount (slide c)).
Proof.
  intros Hready.
  destruct (decide (clamp p 1 (slideCount (slide c)) = targetingPage c)) as [Heq|Hne].
  - by rewrite jumpToPage_same_target.
  - by rewrite jumpToPage_new_target.
Qed.

(** *** Renderer events leave the navigation alone *)

Lemma rendered_app (effs effs' : list Effect) :
  rendered (effs ++ effs') = rendered effs ++ rendered effs'.
Proof. apply omap_app. Qed.

Lemma quiet_refl (c : SlideController) : quiet c c.
Proof. by repeat split. Qed.

Lemma quiet_trans (c1 c2 c3 : SlideController) :
  quiet c1 c2 -> quiet c2 c3 -> quiet c1 c3.
Proof.
  unfold quiet. intros (H1 & H2 & H3 & H4) (K1 & K2 & K3 & K4).
  repeat split; congruence.
Qed.

Lemma log_quiet (e : Effect) (c : SlideController) :
  rendered [e] = [] -> quiet c (log e c).
Proof.
  intros He. repeat split. simpl.
  by rewrite rendered_app, He, app_nil_r.
Qed.

Lemma run_listener_quiet (l : Listener) (arg : Js.Value) (c : SlideController) :
  quiet c (settle (run_listener l arg c)).
Proof.
  destruct l as [cb|]; simpl.
  - by apply log_quiet.
  - destruct (Js.nullish arg); simpl.
    + by apply log_quiet.
    + eapply quiet_trans; by apply log_quiet.
Qed.

Lemma call_listeners_quiet (ls : list (SLIDE_EVENTS * Listener))
    (event : SLIDE_EVENTS) (arg : Js.Value) :
  forall c : SlideController, quiet c (settle (call_listeners ls event arg c)).
Proof.
  induction ls as [|[e l] ls IH]; intros c; simpl; [apply quiet_refl|].
  destruct (decide (e = event)); [|apply IH].
  pose proof (run_listener_quiet l arg c) as Hq.
  destruct (run_listener l arg c) as [c'|error c']; simpl in *; [|done].
  eapply quiet_trans; [exact Hq|apply IH].
Qed.

Lemma dispatch_quiet (event : SLIDE_EVENTS) (arg : Js.Value) (c : SlideController) :
  quiet c (dispatch event arg c).
Proof.
  unfold dispatch, emit. apply call_listeners_quiet.
Qed.

Lemma pollReadyState_quiet (c : SlideController) : quiet c (pollReadyState c).
Proof.
  unfold pollReadyState. destruct (isReady c).
  - by repeat split.
  - by apply log_quiet.
Qed.

Lemma step_from_renderer_quiet (c : SlideController) (i : Input) :
  from_renderer i = true -> quiet c (step c i).
Proof.
  destruct i; simpl; try discriminate; intros _.
  - apply dispatch_quiet.
  - by repeat split.
  - apply pollReadyState_quiet.
Qed.

Lemma run_from_renderer_quiet (inputs : list Input) :
  forall c : SlideController,
    Forall (fun i => from_renderer i = true) inputs ->
    quiet c (run c inputs).
Proof.
  induction inputs as [|i inputs IH]; intros c Hall; [apply quiet_refl|].
  change (run c (i :: inputs)) with (run (step c i) inputs).
  inversion Hall as [|? ? Hi Hrest]; subst.
  eapply quiet_trans; [by apply step_from_renderer_quiet|by apply IH].
Qed.

(** Nothing but the constructor touches the listeners. *)
Lemma step_listeners (c : SlideController) (i : Input) :
  listeners (slide (step c i)) = listeners (slide c).
Proof.
  destruct i; simpl; try done.
  - by rewrite jumpToPage_slide.
  - unfold receiveSyncEvent.
    by destruct (dispatch_quiet syncReceive event (log (Emit syncReceive event) c))
      as (_ & -> & _).
  - by destruct (dispatch_quiet event arg c) as (_ & -> & _).
  - by destruct (pollReadyState_quiet c) as (_ & -> & _).
Qed.

Lemma run_listeners (inputs : list Input) :
  forall c : SlideController,
    listeners (slide (run c inputs)) = listeners (slide c).
Proof.
  induction inputs as [|i inputs IH]; intros c; [done|].
  change (run c (i :: inputs)) with (run (step c i) inputs).
  by rewrite IH, step_listeners.
Qed.

Lemma new_SlideController_listeners
    (slide0 : Slide) (initialState : option SlideState) (initialPage : Z) :
  listeners (slide (new_SlideController slide0 initialState initialPage))
  = listeners slide0 ++ registered.
Proof.
  unfold new_SlideController.
  match goal with
  | |- listeners (slide (pollReadyState ?c)) = _ =>
      destruct (pollReadyState_quiet c) as (_ & -> & _)
  end.
  destruct initialState; simpl; by rewrite <- !app_assoc.
Qed.

(** C5 -- not-ready guard: while [slideCount] is not positive,
    [jumpToPage] returns the controller unchanged: no [renderSlide] call is
    made, [targetingPage] keeps its value, nothing is queued and nothing
    fails.  The same holds for any number of requests in a row. *)
Theorem jumpToPage_ignored_until_ready (p : Z) (c : SlideController) :
  isReady c = false ->
  jumpToPage p c = c
  /\ forall pages : list Z, run c (CallJumpToPage <$> pages) = c.
Proof.
  intros Hready. split; [by apply jumpToPage_not_ready|].
  induction pages as [|q pages IH]; [done|].
  simpl. rewrite jumpToPage_not_ready by done. apply IH.
Qed.

Lemma jumpToPage_ignored_until_ready_witness :
  isReady (Samples.mounted 0) = false
  /\ jumpToPage 5 (Samples.mounted 0) = Samples.mounted 0.
Proof.
  split; [reflexivity|].
  apply (jumpToPage_ignored_until_ready 5 (Samples.mounted 0)). reflexivity.
Defined.

(** C3 -- clamping, with [clamp] as the design document gives it: on a
    ready controller
    [jumpToPage p] records [max(1, min(p, slideCount))] as [targetingPage],
    a page within [1..slideCount]; when it renders, that is the page passed
    to [renderSlide], and otherwise it does nothing.  The call always
    returns a controller: an out-of-range [p] has no error path. *)
Theorem jumpToPage_clamps (p : Z) (c : SlideController) :
  isReady c = true ->
  let N := slideCount (slide c) in
  let target := Z.max 1 (Z.min p N) in
  let c' := jumpToPage p c in
  targetingPage c' = target
  /\ 1 <= target <= N
  /\ effects c' = (if decide (target = targetingPage c)
                   then effects c
                   else effects c ++ [RenderSlide target]).
Proof.
  intros Hready N target c'. subst c'.
  change target with (clamp p 1 N).
  split; [by apply jumpToPage_targetingPage|].
  split; [by apply clamp_range, isReady_true|].
  destruct (decide (clamp p 1 N = targetingPage c)) as [Heq|Hne].
  - by rewrite jumpToPage_same_target.
  - by rewrite jumpToPage_new_target.
Qed.

Lemma jumpToPage_clamps_witness :
  isReady (Samples.mounted 10) = true
  /\ targetingPage (jumpToPage 42 (Samples.mounted 10)) = 10
  /\ targetingPage (jumpToPage (-3) (Samples.mounted 10)) = 1.
Proof.
  split; [reflexivity|]. split.
  - apply (jumpToPage_clamps 42 (Samples.mounted 10)). reflexivity.
  - apply (jumpToPage_clamps (-3) (Samples.mounted 10)). reflexivity.
Defined.

(** C4 -- duplicate suppression: while [targetingPage] is the clamped [p],
    calling [jumpToPage p] any number of times leaves the controller as it
    was (no [renderSlide], same [targetingPage]); and from any controller,
    calling it several times has the effect of calling it once. *)
Theorem jumpToPage_duplicate_suppressed (p : Z) (c : SlideController) (n : nat) :
  (clamp p 1 (slideCount (slide c)) = targetingPage c ->
   Nat.iter n (jumpToPage p) c = c)
  /\ Nat.iter (S n) (jumpToPage p) c = jumpToPage p c.
Proof.
  split.
  - intros Heq. induction n as [|n IH]; [done|].
    simpl. rewrite IH. by apply jumpToPage_same_target.
  - induction n as [|n IH]; [done|].
    change (Nat.iter (S (S n)) (jumpToPage p) c)
      with (jumpToPage p (Nat.iter (S n) (jumpToPage p) c)).
    rewrite IH.
    destruct (isReady c) eqn:Hready.
    + apply jumpToPage_same_target.
      rewrite jumpToPage_slide. symmetry. by apply jumpToPage_targetingPage.
    + by rewrite !(jumpToPage_not_ready p c).
Qed.

Lemma jumpToPage_duplicate_suppressed_witness :
  clamp 5 1 (slideCount (slide (jumpToPage 5 (Samples.mounted 10))))
  = targetingPage (jumpToPage 5 (Samples.mounted 10))
  /\ Nat.iter 3 (jumpToPage 5) (jumpToPage 5 (Samples.mounted 10))
    = jumpToPage 5 (Samples.mounted 10).
Proof.
  split; [reflexivity|].
  apply (proj1 (jumpToPage_duplicate_suppressed
                  5 (jumpToPage 5 (Samples.mounted 10)) 3)).
  reflexivity.
Defined.

(** C1 -- redirection, last write wins: on a ready controller, after
    [jumpToPage a] and any renderer events (the renderer has started but
    not settled), [jumpToPage b] with a different clamped target issues
    exactly one more [renderSlide], with the clamped [b]; nothing was
    rendered in between; [targetingPage] is then the clamped [b] and
    not [a]. *)
Theorem jumpToPage_redirect
    (c : SlideController) (a b : Z) (between : list Input) :
  isReady c = true ->
  Forall (fun i => from_renderer i = true) between ->
  let N := slideCount (slide c) in
  clamp b 1 N <> clamp a 1 N ->
  let c0 := jumpToPage a c in
  let c1 := run c0 between in
  let c2 := jumpToPage b c1 in
  effects c2 = effects c1 ++ [RenderSlide (clamp b 1 N)]
  /\ rendered (effects c2) = rendered (effects c0) ++ [clamp b 1 N]
  /\ targetingPage c2 = clamp b 1 N
  /\ targetingPage c2 <> a.
Proof.
  intros Hready Hbetween N Hne c0 c1 c2.
  destruct (run_from_renderer_quiet between c0 Hbetween)
    as (Hcount & _ & Htarget & Hrendered).
  fold c1 in Hcount, Htarget, Hrendered.
  assert (HN : slideCount (slide c1) = N).
  { rewrite Hcount. subst c0. by rewrite jumpToPage_slide. }
  assert (Ht : targetingPage c1 = clamp a 1 N).
  { rewrite Htarget. subst c0. by apply jumpToPage_targetingPage. }
  assert (Hready1 : isReady c1 = true).
  { apply isReady_true. rewrite HN. by apply isReady_true. }
  assert (Hc2 : c2 = renderSlide (clamp b 1 N) (set_targetingPage (clamp b 1 N) c1)).
  { subst c2. rewrite jumpToPage_new_target; rewrite ?HN; congruence. }
  rewrite Hc2. simpl.
  split; [done|]. split; [by rewrite rendered_app, Hrendered|].
  split; [done|].
  intros Heq. apply Hne.
  assert (Hrange : 1 <= clamp b 1 N <= N) by by apply clamp_range, isReady_true.
  rewrite Heq in Hrange. rewrite (clamp_in_range a N Hrange). done.
Qed.

Lemma jumpToPage_redirect_witness :
  rendered (effects (jumpToPage 9
             (run (jumpToPage 5 (Samples.mounted 10))
                  [SlideEmits renderStart Js.VUndefined])))
  = rendered (effects (jumpToPage 5 (Samples.mounted 10))) ++ [9]
  /\ targetingPage (jumpToPage 9
             (run (jumpToPage 5 (Samples.mounted 10))
                  [SlideEmits renderStart Js.VUndefined])) = 9.
Proof.
  pose proof (jumpToPage_redirect (Samples.mounted 10) 5 9
                [SlideEmits renderStart Js.VUndefined]) as H.
  cbv zeta in H.
  destruct H as (_ & Hrendered & Htarget & _).
  - reflexivity.
  - by repeat constructor.
  - vm_compute. discriminate.
  - split; [exact Hrendered|exact Htarget].
Defined.

(** C7 -- a render error ends the transition and is not retried: on a
    controller built by the constructor on a fresh renderer, whatever
    happened since, a [renderError] event carrying its payload (the handler's
    parameter is typed [{ error: Error }]; anything but [undefined] and
    [null] can be destructured) makes the controller log a warning and call
    [onTransitionEnd()], in this order and nothing else; the [emit] returns,
    no exception leaves the handler; the navigation machine is then [Idle];
    no [renderSlide] is issued and [targetingPage] is untouched. *)
Theorem renderError_ends_transition
    (slide0 : Slide) (initialState : option SlideState) (initialPage : Z)
    (inputs : list Input) (arg : Js.Value) :
  listeners slide0 = [] ->
  Js.nullish arg = false ->
  let c := run (new_SlideController slide0 initialState initialPage) inputs in
  let c' := step c (SlideEmits renderError arg) in
  effects c' = effects c ++ [ConsoleWarn "[Slide] render error" (Js.get "error" arg);
                             Invoke onTransitionEnd []]
  /\ emit renderError arg c = Returns c'
  /\ navState (effects c') = Idle
  /\ rendered (effects c') = rendered (effects c)
  /\ targetingPage c' = targetingPage c.
Proof.
  intros Hfresh Hpayload c c'.
  assert (Hls : listeners (slide c) = registered).
  { subst c. by rewrite run_listeners, new_SlideController_listeners, Hfresh. }
  assert (Hemit : emit renderError arg c
                  = Returns (log (Invoke onTransitionEnd [])
                               (log (ConsoleWarn "[Slide] render error"
                                       (Js.get "error" arg)) c))).
  { unfold emit. rewrite Hls. simpl. by rewrite Hpayload. }
  assert (Hc' : c' = log (Invoke onTransitionEnd [])
                       (log (ConsoleWarn "[Slide] render error" (Js.get "error" arg)) c)).
  { subst c'. simpl. unfold dispatch. by rewrite Hemit. }
  assert (Heff : effects c'
                 = effects c ++ [ConsoleWarn "[Slide] render error" (Js.get "error" arg);
                                 Invoke onTransitionEnd []]).
  { rewrite Hc'. simpl. by rewrite <- app_assoc. }
  destruct (dispatch_quiet renderError arg c) as (_ & _ & Htarget & Hrendered).
  split; [done|]. split; [by rewrite Hemit, Hc'|]. split; [|done].
  rewrite Heff. unfold navState. by rewrite fold_left_app.
Qed.

Lemma renderError_ends_transition_witness :
  Js.nullish (Js.VObject [Js.field "error" (Js.VString "boom")]) = false
  /\ effects (step (run (Samples.mounted 10) [CallJumpToPage 5;
                                              SlideEmits renderStart Js.VUndefined])
                   (SlideEmits renderError
                      (Js.VObject [Js.field "error" (Js.VString "boom")])))
     = [RenderSlide 1; RenderSlide 5; Invoke onTransitionStart [Js.VUndefined];
        ConsoleWarn "[Slide] render error" (Js.VString "boom");
        Invoke onTransitionEnd []].
Proof.
  split; [reflexivity|].
  apply (renderError_ends_transition
           (Samples.deck 10 (Js.value 1)) None 1
           [CallJumpToPage 5; SlideEmits renderStart Js.VUndefined]
           (Js.VObject [Js.field "error" (Js.VString "boom")]));
    reflexivity.
Defined.

(** *** The target outlives the transition *)

Lemma receiveSyncEvent_quiet (event : SyncEvent) (c : SlideController) :
  quiet c (receiveSyncEvent event c).
Proof.
  unfold receiveSyncEvent.
  apply (quiet_trans _ (log (Emit syncReceive event) c));
    [by apply log_quiet|apply dispatch_quiet].
Qed.

(** Every input except a navigation request and a reload of the deck is
    quiet. *)
Lemma step_quiet (c : SlideController) (i : Input) :
  match i with
  | CallJumpToPage _ | SlideLoads _ => True
  | _ => quiet c (step c i)
  end.
Proof.
  destruct i; try exact I.
  - apply receiveSyncEvent_quiet.
  - by apply (log_quiet DestroySlide).
  - apply dispatch_quiet.
  - by repeat split.
  - apply pollReadyState_quiet.
Qed.

Lemma step_targetingPage_other (c : SlideController) (i : Input) :
  is_jump i = false -> targetingPage (step c i) = targetingPage c.
Proof.
  intros Hi. pose proof (step_quiet c i) as Hq.
  destruct i; try discriminate; try (by destruct Hq as (_ & _ & -> & _)).
  done.
Qed.

Lemma run_targetingPage_other (inputs : list Input) :
  forall c : SlideController,
    Forall (fun i => is_jump i = false) inputs ->
    targetingPage (run c inputs) = targetingPage c.
Proof.
  induction inputs as [|i inputs IH]; intros c Hall; [done|].
  change (run c (i :: inputs)) with (run (step c i) inputs).
  inversion Hall as [|? ? Hi Hrest]; subst.
  by rewrite IH, step_targetingPage_other.
Qed.

Lemma step_keeps_target (N t : Z) (c : SlideController) (i : Input) :
  keeps_target N t i = true ->
  slideCount (slide c) = N ->
  targetingPage c = t ->
  slideCount (slide (step c i)) = N
  /\ targetingPage (step c i) = t
  /\ rendered (effects (step c i)) = rendered (effects c).
Proof.
  intros Hi HN Ht. pose proof (step_quiet c i) as Hq.
  destruct i; simpl in Hi;
    try (destruct Hq as (-> & _ & -> & ->); done).
  - apply Z.eqb_eq in Hi. simpl.
    rewrite jumpToPage_same_target; [done|congruence].
  - apply Z.eqb_eq in Hi. by subst.
Qed.

Lemma run_keeps_target (N t : Z) (inputs : list Input) :
  forall c : SlideController,
    Forall (fun i => keeps_target N t i = true) inputs ->
    slideCount (slide c) = N ->
    targetingPage c = t ->
    targetingPage (run c inputs) = t
    /\ rendered (effects (run c inputs)) = rendered (effects c).
Proof.
  induction inputs as [|i inputs IH]; intros c Hall HN Ht; [done|].
  change (run c (i :: inputs)) with (run (step c i) inputs).
  inversion Hall as [|? ? Hi Hrest]; subst.
  destruct (step_keeps_target _ _ c i Hi eq_refl eq_refl) as (HN' & Ht' & Hr').
  destruct (IH (step c i) Hrest HN' Ht') as [Ht'' Hr''].
  split; congruence.
Qed.

(** C10 -- duplicate suppression outlives the transition.
    (1) A new controller has [targetingPage = -1].
    (2) An input changes [targetingPage] only if it is a [jumpToPage] call
        that issues a [renderSlide] for the new target; renderer events,
        [renderEnd] and [renderError] among them, never change it.
    (3) After [jumpToPage p] on a ready controller, however many renderer
        events, moves of the renderer's current page and further requests
        with the same clamped target follow, the target stays the clamped
        [p] and no [renderSlide] is issued.
    (4) The first [jumpToPage] made on a controller, once it is ready,
        issues a [renderSlide] with the clamped page. *)
Theorem targetingPage_outlives_transition
    (slide0 : Slide) (initialState : option SlideState) (initialPage : Z) :
  targetingPage (new_SlideController slide0 initialState initialPage) = -1
  /\ (forall (c : SlideController) (i : Input),
        targetingPage (step c i) <> targetingPage c ->
        exists p : Z,
          i = CallJumpToPage p
          /\ effects (step c i) = effects c ++ [RenderSlide (targetingPage (step c i))])
  /\ (forall (c : SlideController) (p : Z) (later : list Input),
        isReady c = true ->
        Forall (fun i => keeps_target (slideCount (slide c))
                           (clamp p 1 (slideCount (slide c))) i = true) later ->
        targetingPage (run (jumpToPage p c) later) = clamp p 1 (slideCount (slide c))
        /\ rendered (effects (run (jumpToPage p c) later))
           = rendered (effects (jumpToPage p c)))
  /\ (forall (before : list Input) (p : Z),
        Forall (fun i => is_jump i = false) before ->
        let c := run (new_SlideController slide0 initialState initialPage) before in
        isReady c = true ->
        effects (jumpToPage p c)
        = effects c ++ [RenderSlide (clamp p 1 (slideCount (slide c)))]).
Proof.
  assert (Hnew : targetingPage (new_SlideController slide0 initialState initialPage) = -1).
  { unfold new_SlideController.
    match goal with
    | |- targetingPage (pollReadyState ?c) = _ =>
        destruct (pollReadyState_quiet c) as (_ & _ & -> & _)
    end.
    by destruct initialState. }
  split; [exact Hnew|]. split; [|split].
  - intros c i Hchanged.
    destruct (is_jump i) eqn:Hjump.
    + destruct i as [p| | | | | |]; try discriminate.
      exists p. split; [done|]. simpl in *.
      destruct (isReady c) eqn:Hready.
      * destruct (decide (clamp p 1 (slideCount (slide c)) = targetingPage c)) as [Heq|Hne].
        -- by rewrite jumpToPage_same_target in Hchanged.
        -- by rewrite jumpToPage_new_target.
      * by rewrite jumpToPage_not_ready in Hchanged.
    + by rewrite step_targetingPage_other in Hchanged.
  - intros c p later Hready Hlater.
    apply (run_keeps_target _ _ later (jumpToPage p c) Hlater).
    + by rewrite jumpToPage_slide.
    + by apply jumpToPage_targetingPage.
  - intros before p Hbefore c Hready.
    assert (Ht : targetingPage c = -1).
    { subst c. by rewrite run_targetingPage_other. }
    rewrite jumpToPage_new_target; [done|done|].
    rewrite Ht. apply isReady_true in Hready.
    pose proof (clamp_range p _ Hready). lia.
Qed.

Lemma targetingPage_outlives_transition_witness :
  rendered (effects (run (jumpToPage 5 (Samples.mounted 10))
                         [SlideEmits renderStart Js.VUndefined;
                          SlideEmits renderEnd Js.VUndefined;
                          SlideMoves {| currentSlideIndex := Js.value 2 |};
                          CallJumpToPage 5]))
  = rendered (effects (jumpToPage 5 (Samples.mounted 10)))
  /\ effects (jumpToPage 1 (run (Samples.mounted 10) [SlideEmits renderEnd Js.VUndefined]))
     = effects (run (Samples.mounted 10) [SlideEmits renderEnd Js.VUndefined])
       ++ [RenderSlide 1].
Proof.
  destruct (targetingPage_outlives_transition (Samples.deck 10 (Js.value 1)) None 1)
    as (_ & _ & Hlater & Hfirst).
  split.
  - apply (Hlater (Samples.mounted 10) 5); [reflexivity|].
    by repeat constructor.
  - apply (Hfirst [SlideEmits renderEnd Js.VUndefined] 1); [|reflexivity].
    by repeat constructor.
Defined.

End Navigation.

(** ** The embedded page: message relay and page state *)

Module Relay.
Import Host EmbeddedPage.

(** C6 -- loop prevention: an event whose author is the local observer
    leaves the application exactly as it was; in particular no
    [ReceiveMagixMessage] (nor anything else) is posted to the page. *)
Theorem magixListener_drops_own_events (e : Event) (app : App) :
  authorId e = observerId (displayer app) ->
  magixListener e app = app
  /\ posted (magixListener e app) = posted app.
Proof.
  intros Hown. unfold magixListener.
  rewrite Hown, Z.eqb_refl, andb_false_r. done.
Qed.

Lemma magixListener_drops_own_events_witness :
  authorId (Samples.magix_event 7)
  = observerId (displayer (Samples.page_app true (Some "/init")))
  /\ posted (magixListener (Samples.magix_event 7) (Samples.page_app true (Some "/init")))
    = [].
Proof.
  split; [reflexivity|].
  apply (magixListener_drops_own_events
           (Samples.magix_event 7) (Samples.page_app true (Some "/init"))).
  reflexivity.
Defined.

(** The guard is not vacuous: an event of this channel from anybody else
    is passed on, payload unchanged. *)
Lemma magixListener_relays_peer_events (e : Event) (app : App) :
  event e = magixEventChannel app ->
  authorId e <> observerId (displayer app) ->
  posted (magixListener e app) = posted app ++ [ReceiveMagixMessage (payload e)].
Proof.
  intros Hchannel Hpeer. unfold magixListener.
  apply String.eqb_eq in Hchannel. apply Z.eqb_neq in Hpeer.
  rewrite Hchannel, Hpeer. simpl.
  unfold posted. simpl. by rewrite omap_app.
Qed.

Example magixListener_peer_run :
  posted (magixListener (Samples.magix_event 8) (Samples.page_app true (Some "/init")))
  = [ReceiveMagixMessage (Js.VString "sync")].
Proof. reflexivity. Qed.

End Relay.

Module PageState.
Import Host EmbeddedPage.

(** What [setPage] has done once the whiteboard view exists. *)
Lemma ensure_whiteboard_calls (app : App) :
  calls (displayer (ensure_whiteboard app))
  = calls (displayer app) ++ (if whiteboard app then [] else [CreateWhiteBoardView]).
Proof.
  unfold ensure_whiteboard. destruct (whiteboard app); simpl; [|done].
  by rewrite app_nil_r.
Qed.

Lemma ensure_whiteboard_context (app : App) :
  isWritable (ensure_whiteboard app) = isWritable app
  /\ getInitScenePath (ensure_whiteboard app) = getInitScenePath app
  /\ room_defined (ensure_whiteboard app) = room_defined app.
Proof. unfold ensure_whiteboard. by destruct (whiteboard app). Qed.

(** The second half of C9 as it is worded -- write permission and a string
    page suffice for the page to be persisted -- fails: a writable client
    whose application has no initial scene path persists nothing. *)
Lemma setPage_needs_scene_path :
  ~ (forall (app : App) (page : string),
       isWritable app = true ->
       In (UpdateAttributes ["page"] (Js.VString page))
          (calls (displayer (setPage (Js.VString page) app)))).
Proof.
  intros Hclaim.
  specialize (Hclaim (Samples.page_app true None) "2" eq_refl).
  vm_compute in Hclaim.
  destruct Hclaim as [Hcall|[]]. discriminate Hcall.
Qed.

(** C9, amended -- [setPage] writes only behind its whole guard.  Unless
    the page is a string, the client is writable, the application has a
    non-empty initial scene path and the room exists, [setPage] makes no
    call except creating the whiteboard view when there is none yet: no
    scene is created, the scene path is not set, the page is not
    persisted.  When all four hold it creates the scene if the room reports
    it missing, then sets the scene path, then persists the page, in this
    order. *)
Theorem setPage_writes_behind_guard (page : Js.Value) (app : App) :
  let ready := ensure_whiteboard app in
  let app' := setPage page app in
  (Js.as_string page = None \/ isWritable app = false
   \/ Js.truthy_string (getInitScenePath app) = None \/ room_defined app = false ->
   app' = ready)
  /\ (forall p scenePath : string,
        Js.as_string page = Some p ->
        isWritable app = true ->
        Js.truthy_string (getInitScenePath app) = Some scenePath ->
        room_defined app = true ->
        let fullScenePath := scenePath +:+ "/" +:+ p in
        calls (displayer app')
        = calls (displayer ready)
          ++ (if ScenePathType.eqb (scenePathType (displayer ready) fullScenePath)
                                   ScenePathType.None
              then [PutScenes scenePath [{| name := p |}]]
              else [])
          ++ [ContextSetScenePath fullScenePath;
              UpdateAttributes ["page"] (Js.VString p)]).
Proof.
  intros ready app'. subst app'. unfold setPage. fold ready.
  destruct (ensure_whiteboard_context app) as (Hw & Hs & Hr).
  fold ready in Hw, Hs, Hr. rewrite Hw, Hs, Hr.
  split.
  - intros Hguard.
    destruct (Js.as_string page); [|done].
    destruct (isWritable app); [|done].
    destruct (Js.truthy_string (getInitScenePath app)); [|done].
    destruct (room_defined app); [|done].
    by destruct Hguard as [?|[?|[?|?]]].
  - intros p scenePath -> -> -> ->.
    change (Js.join "/" [scenePath; p]) with (scenePath +:+ "/" +:+ p).
    destruct (ScenePathType.eqb _ _); simpl.
    + by rewrite <- !app_assoc.
    + by rewrite <- !app_assoc.
Qed.

Lemma setPage_writes_behind_guard_witness :
  setPage (Js.VString "2") (Samples.page_app false (Some "/init"))
  = ensure_whiteboard (Samples.page_app false (Some "/init"))
  /\ calls (displayer (setPage (Js.VString "2") (Samples.page_app true (Some "/init"))))
    = [CreateWhiteBoardView;
       PutScenes "/init" [{| name := "2" |}];
       ContextSetScenePath "/init/2";
       UpdateAttributes ["page"] (Js.VString "2")].
Proof.
  split.
  - apply (proj1 (setPage_writes_behind_guard
                    (Js.VString "2") (Samples.page_app false (Some "/init")))).
    right. left. reflexivity.
  - apply (proj2 (setPage_writes_behind_guard
                    (Js.VString "2") (Samples.page_app true (Some "/init")))
             "2" "/init"); reflexivity.
Defined.

End PageState.

(** * Further properties of the code *)

(** ** [createDocsViewerPages] *)

Module DocsPages.
Import Slide.

Lemma string_length_app (s1 s2 : string) :
  String.length (s1 +:+ s2) = (String.length s1 + String.length s2)%nat.
Proof. induction s1 as [|a s1 IH]; simpl; [done|]. by rewrite IH. Qed.

(** A common suffix can be cancelled. *)
Lemma string_app_inj_r (t s1 s2 : string) :
  s1 +:+ t = s2 +:+ t -> s1 = s2.
Proof.
  revert s2. induction s1 as [|a s1 IH]; intros [|b s2] H; simpl in H.
  - done.
  - apply (f_equal String.length) in H. simpl in H.
    rewrite !string_length_app in H. simpl in H. lia.
  - apply (f_equal String.length) in H. simpl in H.
    rewrite !string_length_app in H. simpl in H. lia.
  - injection H as -> H. f_equal. by apply IH.
Qed.

(** Different page numbers give different thumbnails. *)
Lemma preview_page_thumbnail_inj (s : SlideResource) (i j : Z) :
  thumbnail (preview_page s i) = thumbnail (preview_page s j) -> i = j.
Proof.
  unfold preview_page. simpl. intros H.
  do 4 apply String.app_inj in H.
  apply string_app_inj_r in H.
  by apply (inj pretty) in H.
Qed.

Lemma push_pages_seqZ (fuel : nat) (s : SlideResource) :
  forall (i : Z) (pages : list DocsViewerPage),
    (Z.to_nat (slideCount (renderer s) - i + 1) <= fuel)%nat ->
    push_pages fuel s i pages
    = pages ++ (preview_page s <$> seqZ i (slideCount (renderer s) - i + 1)).
Proof.
  induction fuel as [|fuel IH]; intros i pages Hfuel; simpl.
  - rewrite seqZ_nil by lia. by rewrite app_nil_r.
  - destruct (Z.leb_spec i (slideCount (renderer s))) as [Hle|Hgt].
    + rewrite IH by lia.
      rewrite (seqZ_cons i) by lia.
      replace (slideCount (renderer s) - (i + 1) + 1)
        with (Z.pred (slideCount (renderer s) - i + 1)) by lia.
      by rewrite <- app_assoc.
    + rewrite seqZ_nil by lia. by rewrite app_nil_r.
Qed.

Lemma createDocsViewerPages_seqZ (s : SlideResource) :
  createDocsViewerPages s = preview_page s <$> seqZ 1 (slideCount (renderer s)).
Proof.
  unfold createDocsViewerPages. rewrite push_pages_seqZ by lia. simpl.
  by replace (slideCount (renderer s) - 1 + 1) with (slideCount (renderer s)) by lia.
Qed.

(** X1 -- [createDocsViewerPages] returns one page per slide, in order: as
    many pages as [slideCount] (none when it is not positive), the page at
    index [i - 1] being the one of slide [i] with the renderer's width and
    height, source ["ppt"] and thumbnail [url/taskId/preview/i.png]; no two
    pages share a thumbnail; more fuel for the loop changes nothing. *)
Theorem createDocsViewerPages_pages (s : SlideResource) :
  let N := slideCount (renderer s) in
  let pages := createDocsViewerPages s in
  length pages = Z.to_nat N
  /\ (forall i : Z, 1 <= i <= N ->
        pages !! Z.to_nat (i - 1)
        = Some {| page_width := width s;
                  page_height := height s;
                  thumbnail := url s +:+ "/" +:+ taskId s +:+ "/preview/"
                               +:+ Js.Number_toString i +:+ ".png";
                  src := "ppt" |})
  /\ NoDup (thumbnail <$> pages)
  /\ (forall fuel : nat, (Z.to_nat N <= fuel)%nat -> push_pages fuel s 1 [] = pages).
Proof.
  intros N pages. subst pages. rewrite createDocsViewerPages_seqZ. fold N.
  split; [by rewrite length_fmap, length_seqZ|]. split; [|split].
  - intros i Hi. rewrite list_lookup_fmap, lookup_seqZ_lt by lia. simpl.
    by replace (1 + Z.of_nat (Z.to_nat (i - 1))) with i by lia.
  - rewrite <- list_fmap_compose.
    apply NoDup_fmap_2; [|apply NoDup_seqZ].
    intros i j. apply preview_page_thumbnail_inj.
  - intros fuel Hfuel. rewrite push_pages_seqZ by (fold N; lia). simpl. fold N.
    by replace (N - 1 + 1) with N by lia.
Qed.

Lemma createDocsViewerPages_pages_witness :
  1 <= 2 <= Slide.slideCount (renderer (Samples.resource 3))
  /\ createDocsViewerPages (Samples.resource 3) !! 1%nat
     = Some {| page_width := 1280;
               page_height := 720;
               thumbnail := "https://cdn/t1/preview/2.png";
               src := "ppt" |}.
Proof.
  split; [vm_compute; by split|].
  apply (proj1 (proj2 (createDocsViewerPages_pages (Samples.resource 3))) 2).
  vm_compute. by split.
Defined.

End DocsPages.

(** ** The controller and the renderer's events *)

Module Lifecycle.
Import Slide.

Lemma constructed_listeners
    (slide0 : Slide) (initialState : option SlideState) (initialPage : Z)
    (inputs : list Input) :
  listeners slide0 = [] ->
  listeners (slide (run (new_SlideController slide0 initialState initialPage) inputs))
  = registered.
Proof.
  intros Hfresh.
  by rewrite Navigation.run_listeners, Navigation.new_SlideController_listeners, Hfresh.
Qed.

(** X2 -- the routing of renderer events.  On a controller built by the
    constructor on a renderer without earlier listeners, whatever happened
    since, an emitted event reaches exactly these callbacks, with the
    emitted argument: [slideChange] reaches [onPageChanged];
    [renderStart] and [mainSeqStepStart] reach [onTransitionStart];
    [renderEnd] and [mainSeqStepEnd] reach [onTransitionEnd]; [syncDispatch]
    reaches [onDispatchSyncEvent]; [animateStart], [animateEnd] and
    [syncReceive] reach nothing.  [renderError] warns with the [error]
    property of its argument and calls [onTransitionEnd()]; but when its
    argument is [undefined] or [null] the handler throws a [TypeError]
    while destructuring it, so that nothing is logged, [onTransitionEnd] is
    not called and the exception leaves the controller. *)
Theorem constructed_routing
    (slide0 : Slide) (initialState : option SlideState) (initialPage : Z)
    (inputs : list Input) (event : SLIDE_EVENTS) (arg : Js.Value) :
  listeners slide0 = [] ->
  let c := run (new_SlideController slide0 initialState initialPage) inputs in
  effects (step c (SlideEmits event arg))
  = effects c ++
    match event with
    | slideChange => [Invoke onPageChanged [arg]]
    | renderStart | mainSeqStepStart => [Invoke onTransitionStart [arg]]
    | renderEnd | mainSeqStepEnd => [Invoke onTransitionEnd [arg]]
    | syncDispatch => [Invoke onDispatchSyncEvent [arg]]
    | renderError =>
        match arg with
        | Js.VUndefined | Js.VNull => [Uncaught "TypeError"]
        | _ => [ConsoleWarn "[Slide] render error" (Js.get "error" arg);
                Invoke onTransitionEnd []]
        end
    | animateStart | animateEnd | syncReceive => []
    end.
Proof.
  intros Hfresh c.
  pose proof (constructed_listeners slide0 initialState initialPage inputs Hfresh) as Hls.
  fold c in Hls. simpl. unfold dispatch, emit. rewrite Hls.
  destruct event; simpl; rewrite ?app_nil_r, <- ?app_assoc; try done.
  destruct arg; simpl; by rewrite <- ?app_assoc.
Qed.

Lemma constructed_routing_witness :
  effects (step (run (Samples.mounted 10) [CallJumpToPage 5])
                (SlideEmits animateStart Js.VUndefined))
  = [RenderSlide 1; RenderSlide 5]
  /\ effects (step (run (Samples.mounted 10) [CallJumpToPage 5])
                  (SlideEmits slideChange (Js.VNumber 5)))
    = [RenderSlide 1; RenderSlide 5; Invoke onPageChanged [Js.VNumber 5]]
  /\ effects (step (run (Samples.mounted 10) [CallJumpToPage 5])
                  (SlideEmits renderError Js.VUndefined))
    = [RenderSlide 1; RenderSlide 5; Uncaught "TypeError"].
Proof.
  split; [|split].
  - apply (constructed_routing (Samples.deck 10 (Js.value 1)) None 1
             [CallJumpToPage 5] animateStart Js.VUndefined).
    reflexivity.
  - apply (constructed_routing (Samples.deck 10 (Js.value 1)) None 1
             [CallJumpToPage 5] slideChange (Js.VNumber 5)).
    reflexivity.
  - apply (constructed_routing (Samples.deck 10 (Js.value 1)) None 1
             [CallJumpToPage 5] renderError Js.VUndefined).
    reflexivity.
Defined.

(** Relaying received events one after the other. *)
Lemma run_receive_effects (events : list SyncEvent) :
  forall c : SlideController,
    listeners (slide c) = registered ->
    run c (CallReceiveSyncEvent <$> events) = 
    fold_left (fun c e => log (Emit syncReceive e) c) events c.
Proof.
  induction events as [|e events IH]; intros c Hls; [done|].
  change (run c (CallReceiveSyncEvent <$> e :: events))
    with (run (receiveSyncEvent e c) (CallReceiveSyncEvent <$> events)).
  assert (Hstep : receiveSyncEvent e c = log (Emit syncReceive e) c).
  { unfold receiveSyncEvent, dispatch, emit. simpl. by rewrite Hls. }
  rewrite Hstep. by apply IH.
Qed.

Lemma fold_log_effects (events : list SyncEvent) :
  forall c : SlideController,
    effects (fold_left (fun c e => log (Emit syncReceive e) c) events c)
    = effects c ++ (Emit syncReceive <$> events).
Proof.
  induction events as [|e events IH]; intros c; simpl.
  - by rewrite app_nil_r.
  - rewrite IH. simpl. by rewrite <- app_assoc.
Qed.

(** X3 -- received sync events go to the renderer and nowhere else.  On a
    controller built by the constructor on a renderer without earlier
    listeners, [receiveSyncEvent] called on a series of events emits
    [syncReceive] once per event, in order and with the event unchanged;
    no callback is invoked, so a received event is never handed to
    [onDispatchSyncEvent] again, and no [renderSlide] is issued. *)
Theorem receiveSyncEvent_no_echo
    (slide0 : Slide) (initialState : option SlideState) (initialPage : Z)
    (inputs : list Input) (events : list SyncEvent) :
  listeners slide0 = [] ->
  let c := run (new_SlideController slide0 initialState initialPage) inputs in
  effects (run c (CallReceiveSyncEvent <$> events))
  = effects c ++ (Emit syncReceive <$> events).
Proof.
  intros Hfresh c.
  rewrite run_receive_effects, fold_log_effects; [done|].
  by apply constructed_listeners.
Qed.

Lemma receiveSyncEvent_no_echo_witness :
  effects (run (run (Samples.mounted 10) [])
               (CallReceiveSyncEvent <$> [Js.VString "step 1"; Js.VString "step 2"]))
  = [RenderSlide 1;
     Emit syncReceive (Js.VString "step 1");
     Emit syncReceive (Js.VString "step 2")].
Proof.
  apply (receiveSyncEvent_no_echo (Samples.deck 10 (Js.value 1)) None 1 []
           [Js.VString "step 1"; Js.VString "step 2"]).
  reflexivity.
Defined.

End Lifecycle.

(** ** Readiness and its polling timer *)

Module Readiness.
Import Slide.

Lemma timers_set_app (effs effs' : list Effect) :
  timers_set (effs ++ effs') = (timers_set effs + timers_set effs')%nat.
Proof. unfold timers_set. by rewrite List.filter_app, length_app. Qed.

(** Logging anything but a timeout changes neither the promise nor the
    number of timeouts set. *)
Lemma log_calm (e : Effect) (c : SlideController) :
  timers_set [e] = 0%nat ->
  readyResolved (log e c) = readyResolved c
  /\ timers_set (effects (log e c)) = timers_set (effects c).
Proof.
  intros He. split; [done|]. simpl. rewrite timers_set_app, He. lia.
Qed.

Lemma run_listener_calm (l : Listener) (arg : Js.Value) (c : SlideController) :
  readyResolved (settle (run_listener l arg c)) = readyResolved c
  /\ timers_set (effects (settle (run_listener l arg c))) = timers_set (effects c).
Proof.
  destruct l as [cb|]; simpl.
  - by apply log_calm.
  - destruct (Js.nullish arg); simpl.
    + by apply log_calm.
    + split; [done|]. rewrite !timers_set_app. unfold timers_set. simpl. lia.
Qed.

Lemma call_listeners_calm (ls : list (SLIDE_EVENTS * Listener))
    (event : SLIDE_EVENTS) (arg : Js.Value) :
  forall c : SlideController,
    readyResolved (settle (call_listeners ls event arg c)) = readyResolved c
    /\ timers_set (effects (settle (call_listeners ls event arg c)))
       = timers_set (effects c).
Proof.
  induction ls as [|[e l] ls IH]; intros c; simpl; [done|].
  destruct (decide (e = event)); [|apply IH].
  pose proof (run_listener_calm l arg c) as Hc.
  destruct (run_listener l arg c) as [c'|error c']; simpl in *; [|done].
  destruct (IH c') as [-> ->]. exact Hc.
Qed.

Lemma dispatch_calm (event : SLIDE_EVENTS) (arg : Js.Value) (c : SlideController) :
  readyResolved (dispatch event arg c) = readyResolved c
  /\ timers_set (effects (dispatch event arg c)) = timers_set (effects c).
Proof.
  unfold dispatch, emit. apply call_listeners_calm.
Qed.

Lemma jumpToPage_calm (p : Z) (c : SlideController) :
  readyResolved (jumpToPage p c) = readyResolved c
  /\ timers_set (effects (jumpToPage p c)) = timers_set (effects c).
Proof.
  unfold jumpToPage. destruct (isReady c); simpl; [|done].
  destruct (_ =? _); simpl; [done|].
  split; [done|]. rewrite timers_set_app. unfold timers_set. simpl. lia.
Qed.

Lemma timer_or_other (i : Input) : i = TimerFires \/ i <> TimerFires.
Proof. destruct i; (by left) || (by right). Qed.

(** Only the timer touches the promise and the timeouts. *)
Lemma step_calm (c : SlideController) (i : Input) :
  i <> TimerFires ->
  readyResolved (step c i) = readyResolved c
  /\ timers_set (effects (step c i)) = timers_set (effects c).
Proof.
  intros Hi. destruct i; simpl; try done.
  - apply jumpToPage_calm.
  - unfold receiveSyncEvent.
    destruct (dispatch_calm syncReceive event (log (Emit syncReceive event) c))
      as [-> ->].
    by apply log_calm.
  - by apply log_calm.
  - apply dispatch_calm.
Qed.

Lemma pollReadyState_ready (c : SlideController) :
  isReady c = true ->
  readyResolved (pollReadyState c) = true
  /\ effects (pollReadyState c) = effects c.
Proof. unfold pollReadyState. by intros ->. Qed.

Lemma pollReadyState_not_ready (c : SlideController) :
  isReady c = false ->
  readyResolved (pollReadyState c) = readyResolved c
  /\ effects (pollReadyState c) = effects c ++ [SetTimeout 500].
Proof. unfold pollReadyState. by intros ->. Qed.

(** X4 -- [ready] is resolved by [pollReadyState] and stays resolved.  The
    constructor's own call of [pollReadyState] resolves [ready] at once
    exactly when [slideCount] is already positive.  Afterwards, the polling
    timer firing while [slideCount] is positive resolves it and sets no
    further timeout; firing while [slideCount] is not positive it leaves
    the promise as it was and sets one more timeout of 500 ms; no other
    input changes the promise; and once resolved it stays resolved whatever
    follows, a deck that becomes empty again and [destroy] included. *)
Theorem ready_resolved_by_polling
    (slide0 : Slide) (initialState : option SlideState) (initialPage : Z)
    (c : SlideController) :
  readyResolved (new_SlideController slide0 initialState initialPage)
  = (0 <? slideCount slide0)
  /\ (isReady c = true ->
      readyResolved (step c TimerFires) = true
      /\ effects (step c TimerFires) = effects c)
  /\ (isReady c = false ->
      readyResolved (step c TimerFires) = readyResolved c
      /\ effects (step c TimerFires) = effects c ++ [SetTimeout 500])
  /\ (forall i : Input,
        readyResolved (step c i) <> readyResolved c ->
        i = TimerFires /\ isReady c = true /\ readyResolved (step c i) = true)
  /\ (forall inputs : list Input,
        readyResolved c = true -> readyResolved (run c inputs) = true).
Proof.
  split; [|split; [|split; [|split]]].
  - unfold new_SlideController, pollReadyState, isReady.
    destruct initialState; simpl; by destruct (0 <? slideCount slide0).
  - apply pollReadyState_ready.
  - apply pollReadyState_not_ready.
  - intros i Hchanged.
    destruct (timer_or_other i) as [->|Hother].
    + simpl in *. destruct (isReady c) eqn:Hready.
      * by destruct (pollReadyState_ready c Hready) as [-> _].
      * by destruct (pollReadyState_not_ready c Hready) as [Heq _].
    + by destruct (step_calm c i Hother) as [Heq _].
  - intros inputs. revert c.
    induction inputs as [|i inputs IH]; intros c Hresolved; [done|].
    change (run c (i :: inputs)) with (run (step c i) inputs).
    apply IH.
    destruct (timer_or_other i) as [->|Hother].
    + simpl. unfold pollReadyState. by destruct (isReady c).
    + by destruct (step_calm c i Hother) as [-> _].
Qed.

Lemma ready_resolved_by_polling_witness :
  (readyResolved (Samples.mounted 0) = false
   /\ readyResolved (Samples.mounted 10) = true)
  /\ (isReady (run (Samples.mounted 0) [SlideLoads 10]) = true
      /\ readyResolved (run (Samples.mounted 0) [SlideLoads 10]) = false
      /\ readyResolved (step (run (Samples.mounted 0) [SlideLoads 10]) TimerFires) = true)
  /\ (isReady (Samples.mounted 0) = false
      /\ effects (step (Samples.mounted 0) TimerFires)
         = effects (Samples.mounted 0) ++ [SetTimeout 500])
  /\ readyResolved (run (run (Samples.mounted 0) [SlideLoads 10; TimerFires])
                        [SlideLoads 0; CallDestroy; TimerFires]) = true.
Proof.
  pose proof (ready_resolved_by_polling (Samples.deck 0 (Js.value 1)) None 1
                (run (Samples.mounted 0) [SlideLoads 10]))
    as (Hnew0 & Hfire & _ & _ & _).
  pose proof (ready_resolved_by_polling (Samples.deck 10 (Js.value 1)) None 1
                (Samples.mounted 0))
    as (Hnew10 & _ & Hrearm & _ & _).
  pose proof (ready_resolved_by_polling (Samples.deck 0 (Js.value 1)) None 1
                (run (Samples.mounted 0) [SlideLoads 10; TimerFires]))
    as (_ & _ & _ & _ & Hstays).
  split; [split; [exact Hnew0|exact Hnew10]|].
  split; [split; [reflexivity|split; [reflexivity|by apply Hfire]]|].
  split; [split; [reflexivity|by apply Hrearm]|].
  by apply Hstays.
Defined.

Lemma run_timed_invariant (inputs : list Input) :
  forall (c : SlideController) (pending : nat) (c' : SlideController) (pending' : nat),
    pending = (if readyResolved c then 0 else 1)%nat ->
    run_timed c pending inputs = Some (c', pending') ->
    c' = run c inputs
    /\ pending' = (if readyResolved c' then 0 else 1)%nat.
Proof.
  induction inputs as [|i inputs IH]; intros c pending c' pending' Hpending Hrun.
  - simpl in Hrun. by injection Hrun as <- <-.
  - change (run c (i :: inputs)) with (run (step c i) inputs).
    destruct (timer_or_other i) as [->|Hother].
    + simpl in Hrun. destruct pending as [|p]; [done|].
      destruct (readyResolved c) eqn:Hresolved; [done|].
      injection Hpending as ->.
      apply (IH _ _ _ _) in Hrun; [done|].
      simpl. destruct (isReady c) eqn:Hready.
      * destruct (pollReadyState_ready c Hready) as [-> ->]. lia.
      * destruct (pollReadyState_not_ready c Hready) as [-> ->].
        rewrite Hresolved, timers_set_app. unfold timers_set. simpl. lia.
    + destruct (step_calm c i Hother) as [Hr Ht].
      assert (Hrun' : run_timed (step c i) pending inputs = Some (c', pending')).
      { rewrite <- Hrun. simpl. rewrite Ht, Nat.sub_diag, Nat.add_0_r.
        by destruct i, pending. }
      apply (IH _ _ _ _) in Hrun'; [done|]. by rewrite Hr.
Qed.

(** X5 -- the polling timer.  Follow a controller from its construction
    through any inputs in which the timer fires only when a timeout is
    pending.  Then the run is the plain run of the inputs, and a timeout is
    pending exactly while [ready] is unresolved: never two at once, and
    none once [ready] is resolved.  Nothing but readiness ends the polling;
    [destroy] does not. *)
Theorem polling_keeps_one_timer
    (slide0 : Slide) (initialState : option SlideState) (initialPage : Z)
    (inputs : list Input) (c : SlideController) (pending : nat) :
  mount_timed slide0 initialState initialPage inputs = Some (c, pending) ->
  c = run (new_SlideController slide0 initialState initialPage) inputs
  /\ pending = (if readyResolved c then 0 else 1)%nat.
Proof.
  unfold mount_timed. apply run_timed_invariant.
  unfold new_SlideController.
  match goal with
  | |- context [pollReadyState ?c0] => set (built := c0)
  end.
  assert (Hbuilt : readyResolved built = false /\ timers_set (effects built) = 0%nat).
  { subst built. by destruct initialState. }
  destruct Hbuilt as [Hr Ht].
  destruct (isReady built) eqn:Hready.
  - destruct (pollReadyState_ready built Hready) as [-> ->]. done.
  - destruct (pollReadyState_not_ready built Hready) as [-> ->].
    rewrite Hr, timers_set_app, Ht. done.
Qed.

Lemma polling_keeps_one_timer_witness :
  mount_timed (Samples.deck 0 (Js.value 1)) None 1
              [TimerFires; CallDestroy; TimerFires]
  = Some (run (Samples.mounted 0) [TimerFires; CallDestroy; TimerFires], 1%nat)
  /\ 1%nat = (if readyResolved (run (Samples.mounted 0)
                                    [TimerFires; CallDestroy; TimerFires])
              then 0 else 1)%nat.
Proof.
  split; [reflexivity|].
  apply (polling_keeps_one_timer (Samples.deck 0 (Js.value 1)) None 1
           [TimerFires; CallDestroy; TimerFires]).
  reflexivity.
Defined.

End Readiness.

(** ** Whole runs of navigation requests *)

Module NavigationRuns.
Import Slide.

(** Inputs other than requests send nothing to the renderer. *)
Lemma step_rendered_other (c : SlideController) (i : Input) :
  is_jump i = false -> rendered (effects (step c i)) = rendered (effects c).
Proof.
  intros Hi. pose proof (Navigation.step_quiet c i) as Hq.
  destruct i; try discriminate; try (by destruct Hq as (_ & _ & _ & ->)).
  done.
Qed.

Lemma requested_other (i : Input) (inputs : list Input) :
  is_jump i = false -> requested (i :: inputs) = requested inputs.
Proof. by destruct i. Qed.

(** The last element of a non-empty list does not depend on the default. *)
Lemma last_nonempty_default (l : list Z) :
  forall x d d' : Z, List.last (x :: l) d = List.last (x :: l) d'.
Proof.
  induction l as [|y l IH]; intros x d d'; [done|].
  change (List.last (y :: l) d = List.last (y :: l) d'). apply IH.
Qed.

Lemma last_cons (t : Z) (l : list Z) (d : Z) :
  List.last (t :: l) d = List.last l t.
Proof.
  destruct l as [|x l]; [done|].
  change (List.last (x :: l) d = List.last (x :: l) t).
  apply last_nonempty_default.
Qed.

(** X6 -- what the renderer is asked for.  On a ready controller, through
    any mix of navigation requests and renderer events, the pages passed
    to [renderSlide] are the clamped requests, in order, without those
    equal to the target standing when they arrive; the final target is the
    last clamped request (the old target when there was no request). *)
Theorem rendered_is_collapsed_requests (inputs : list Input) :
  forall c : SlideController,
    isReady c = true ->
    Forall (fun i => is_jump i || from_renderer i = true) inputs ->
    let clamped := (fun p => clamp p 1 (slideCount (slide c))) <$> requested inputs in
    rendered (effects (run c inputs))
    = rendered (effects c) ++ collapse (targetingPage c) clamped
    /\ targetingPage (run c inputs) = List.last clamped (targetingPage c).
Proof.
  induction inputs as [|i inputs IH]; intros c Hready Hall; simpl.
  - by rewrite app_nil_r.
  - inversion Hall as [|? ? Hi Hrest]; subst.
    change (fold_left step inputs (step c i)) with (run (step c i) inputs).
    destruct i as [p| | | | | |]; try discriminate.
    + (* a request *)
      change (requested (CallJumpToPage p :: inputs)) with (p :: requested inputs).
      rewrite fmap_cons.
      remember (clamp p 1 (slideCount (slide c))) as t eqn:Et.
      assert (Hslide : slide (step c (CallJumpToPage p)) = slide c)
        by apply Navigation.jumpToPage_slide.
      assert (Hready' : isReady (step c (CallJumpToPage p)) = true)
        by (unfold isReady; by rewrite Hslide).
      destruct (IH _ Hready' Hrest) as [Hr Ht]. rewrite Hslide in Hr, Ht.
      rewrite Hr, Ht, last_cons. simpl step. simpl collapse.
      destruct (Z.eqb_spec t (targetingPage c)) as [Heq|Hne].
      * rewrite Navigation.jumpToPage_same_target by congruence.
        by rewrite Heq.
      * rewrite (Navigation.jumpToPage_new_target p c Hready) by congruence.
        rewrite <- Et. simpl.
        by rewrite Navigation.rendered_app, <- app_assoc.
    + (* an event *)
      destruct (Navigation.step_from_renderer_quiet c (SlideEmits event arg) eq_refl)
        as (Hcount & _ & Htarget & Hrendered).
      assert (Hready' : isReady (step c (SlideEmits event arg)) = true)
        by (unfold isReady; by rewrite Hcount).
      destruct (IH _ Hready' Hrest) as [Hr Ht].
      rewrite Hcount, Htarget, Hrendered in *. done.
    + (* the renderer moves *)
      destruct (Navigation.step_from_renderer_quiet c (SlideMoves state) eq_refl)
        as (Hcount & _ & Htarget & Hrendered).
      assert (Hready' : isReady (step c (SlideMoves state)) = true)
        by (unfold isReady; by rewrite Hcount).
      destruct (IH _ Hready' Hrest) as [Hr Ht].
      rewrite Hcount, Htarget, Hrendered in *. done.
    + (* the timer *)
      destruct (Navigation.step_from_renderer_quiet c TimerFires eq_refl)
        as (Hcount & _ & Htarget & Hrendered).
      assert (Hready' : isReady (step c TimerFires) = true)
        by (unfold isReady; by rewrite Hcount).
      destruct (IH _ Hready' Hrest) as [Hr Ht].
      rewrite Hcount, Htarget, Hrendered in *. done.
Qed.

Lemma rendered_is_collapsed_requests_witness :
  rendered (effects (run (Samples.mounted 10)
                         [CallJumpToPage 5; SlideEmits renderStart Js.VUndefined;
                          CallJumpToPage 5; CallJumpToPage 42; CallJumpToPage 99;
                          SlideEmits renderEnd Js.VUndefined; CallJumpToPage 2]))
  = [1] ++ [5; 10; 2]
  /\ targetingPage (run (Samples.mounted 10)
                         [CallJumpToPage 5; SlideEmits renderStart Js.VUndefined;
                          CallJumpToPage 5; CallJumpToPage 42; CallJumpToPage 99;
                          SlideEmits renderEnd Js.VUndefined; CallJumpToPage 2])
     = 2.
Proof.
  apply (rendered_is_collapsed_requests
           [CallJumpToPage 5; SlideEmits renderStart Js.VUndefined;
            CallJumpToPage 5; CallJumpToPage 42; CallJumpToPage 99;
            SlideEmits renderEnd Js.VUndefined; CallJumpToPage 2]
           (Samples.mounted 10)).
  - reflexivity.
  - by repeat constructor.
Defined.

Lemma no_stutter_snoc (pages : list Z) (t d : Z) :
  no_stutter pages -> List.last pages d <> t -> no_stutter (pages ++ [t]).
Proof.
  induction pages as [|p pages IH]; intros Hpages Hlast; [done|].
  destruct pages as [|q pages].
  - simpl in *. done.
  - destruct Hpages as [Hpq Hrest].
    change (p <> q /\ no_stutter ((q :: pages) ++ [t])).
    split; [done|]. by apply IH.
Qed.

Lemma run_never_repeats (inputs : list Input) :
  forall (c : SlideController) (base pages : list Z),
    rendered (effects c) = base ++ pages ->
    no_stutter pages ->
    Forall (fun p => 1 <= p) pages ->
    targetingPage c = List.last pages (-1) ->
    exists pages' : list Z,
      rendered (effects (run c inputs)) = base ++ pages'
      /\ no_stutter pages'
      /\ Forall (fun p => 1 <= p) pages'
      /\ targetingPage (run c inputs) = List.last pages' (-1).
Proof.
  induction inputs as [|i inputs IH]; intros c base pages Hr Hs Hp Ht.
  - by exists pages.
  - change (run c (i :: inputs)) with (run (step c i) inputs).
    destruct (is_jump i) eqn:Hjump.
    + destruct i as [p| | | | | |]; try discriminate. simpl step.
      destruct (isReady c) eqn:Hready.
      * destruct (decide (clamp p 1 (slideCount (slide c)) = targetingPage c))
          as [Heq|Hne].
        -- rewrite Navigation.jumpToPage_same_target by done. by apply (IH c base pages).
        -- rewrite Navigation.jumpToPage_new_target by done.
           set (t := clamp p 1 (slideCount (slide c))) in *.
           assert (Hrange : 1 <= t <= slideCount (slide c))
             by by apply Navigation.clamp_range, Navigation.isReady_true.
           apply (IH _ base (pages ++ [t])).
           ++ simpl. by rewrite Navigation.rendered_app, Hr, <- app_assoc.
           ++ apply (no_stutter_snoc pages t (-1)); [done|]. by rewrite <- Ht.
           ++ rewrite Forall_app, Forall_singleton. split; [done|lia].
           ++ simpl. by rewrite List.last_last.
      * rewrite Navigation.jumpToPage_not_ready by done. by apply (IH c base pages).
    + apply (IH _ base pages); try done.
      * by rewrite step_rendered_other.
      * by rewrite Navigation.step_targetingPage_other.
Qed.

(** X7 -- requests never repeat a page.  From its construction and through
    any inputs whatever (requests, renderer events, reloads of the deck,
    [destroy]), the pages the controller passes to [renderSlide] after the
    constructor's own call are all at least 1, no two in a row are equal,
    and [targetingPage] is the last of them (or [-1] when there is none).
    The constructor's own call is [renderSlide(initialPage)], unclamped,
    when no initial state is given, and none otherwise. *)
Theorem requests_never_repeat
    (slide0 : Slide) (initialState : option SlideState) (initialPage : Z)
    (inputs : list Input) :
  let c := run (new_SlideController slide0 initialState initialPage) inputs in
  exists pages : list Z,
    rendered (effects c)
    = match initialState with Some _ => [] | None => [initialPage] end ++ pages
    /\ no_stutter pages
    /\ Forall (fun p => 1 <= p) pages
    /\ targetingPage c = List.last pages (-1).
Proof.
  intros c. subst c. apply (run_never_repeats inputs _ _ []); try done.
  - rewrite app_nil_r. unfold new_SlideController.
    match goal with
    | |- rendered (effects (pollReadyState ?c0)) = _ =>
        destruct (Navigation.pollReadyState_quiet c0) as (_ & _ & _ & ->)
    end.
    by destruct initialState.
  - unfold new_SlideController.
    match goal with
    | |- targetingPage (pollReadyState ?c0) = _ =>
        destruct (Navigation.pollReadyState_quiet c0) as (_ & _ & -> & _)
    end.
    by destruct initialState.
Qed.

End NavigationRuns.

(** ** The embedded page: broadcast and store *)

Module Broadcast.
Import Host EmbeddedPage.

Lemma channel_inj (app1 app2 : App) :
  magixEventChannel app1 = magixEventChannel app2 -> appId app1 = appId app2.
Proof. unfold magixEventChannel. apply String.app_inj. Qed.

Lemma sendMagixMessage_calls (message : Js.Value) (app : App) :
  calls (displayer (sendMagixMessage message app))
  = calls (displayer app)
    ++ (if isWritable app && room_defined app
        then [DispatchMagixEvent (magixEventChannel app) message]
        else []).
Proof.
  unfold sendMagixMessage.
  destruct (isWritable app && room_defined app); simpl; [done|].
  by rewrite app_nil_r.
Qed.

(** X8 -- a broadcast and its delivery.  A client that is read-only or has
    no room sends nothing.  When a writable client sends [message], the
    room is asked to dispatch it once, on the channel of this application;
    and if the room delivers that dispatch as the event [e] with the sender
    as author, then a client of the same application with another observer
    id posts exactly [message] to its page, a client of a different
    application posts nothing, and the sender itself posts nothing. *)
Theorem magix_round_trip
    (sender receiver : App) (message : Js.Value) (e : Event) :
  (isWritable sender = false \/ room_defined sender = false ->
   sendMagixMessage message sender = sender)
  /\ (isWritable sender = true ->
      room_defined sender = true ->
      calls (displayer (sendMagixMessage message sender))
      = calls (displayer sender) ++ [DispatchMagixEvent (event e) (payload e)] ->
      authorId e = observerId (displayer sender) ->
      event e = "channel-" +:+ appId sender
      /\ (appId receiver = appId sender ->
          observerId (displayer receiver) <> observerId (displayer sender) ->
          posted (magixListener e receiver)
          = posted receiver ++ [ReceiveMagixMessage message])
      /\ (appId receiver <> appId sender -> magixListener e receiver = receiver)
      /\ magixListener e (sendMagixMessage message sender)
         = sendMagixMessage message sender).
Proof.
  split.
  - unfold sendMagixMessage. by intros [-> | ->]; rewrite ?andb_false_r.
  - intros Hw Hr Hsent Hauthor.
    rewrite sendMagixMessage_calls, Hw, Hr in Hsent. simpl in Hsent.
    apply app_inv_head in Hsent. injection Hsent as Hchannel Hpayload.
    split; [done|]. split; [|split].
    + intros Hsame Hpeer. rewrite Hpayload.
      apply Relay.magixListener_relays_peer_events.
      * rewrite <- Hchannel. unfold magixEventChannel. by rewrite Hsame.
      * congruence.
    + intros Hother. unfold magixListener.
      destruct (String.eqb_spec (event e) (magixEventChannel receiver)) as [Heq|Hne];
        [|done].
      exfalso. apply Hother. apply channel_inj. congruence.
    + unfold magixListener.
      replace (observerId (displayer (sendMagixMessage message sender)))
        with (observerId (displayer sender))
        by (unfold sendMagixMessage; by destruct (_ && _)).
      by rewrite Hauthor, Z.eqb_refl, andb_false_r.
Qed.

Lemma magix_round_trip_witness :
  posted (magixListener (Samples.magix_event 7)
            {| appId := "app-1"; isWritable := false; getInitScenePath := None;
               displayer := {| observerId := 8;
                               answers := fun _ _ => ScenePathType.None;
                               calls := [] |};
               room_defined := true; whiteboard := false |})
  = [ReceiveMagixMessage (Js.VString "sync")].
Proof.
  apply (proj2 (magix_round_trip
                  (Samples.page_app true None)
                  {| appId := "app-1"; isWritable := false; getInitScenePath := None;
                     displayer := {| observerId := 8;
                                     answers := fun _ _ => ScenePathType.None;
                                     calls := [] |};
                     room_defined := true; whiteboard := false |}
                  (Js.VString "sync") (Samples.magix_event 7)));
    try reflexivity.
  vm_compute. discriminate.
Defined.

End Broadcast.

Module Store.
Import Host EmbeddedPage.

Lemma setStore_keys_calls (payload : Js.Value) (keys : list string) :
  forall app : App,
    calls (displayer (fold_left (setStore_key payload) keys app))
    = calls (displayer app)
      ++ ((fun id => UpdateAttributes ["store"; id] (Js.get id payload))
          <$> List.filter (fun id => negb (String.eqb id mainStoreId)) keys).
Proof.
  induction keys as [|id keys IH]; intros app; simpl.
  - by rewrite app_nil_r.
  - rewrite IH. unfold setStore_key.
    destruct (negb (String.eqb id mainStoreId)); simpl; [|done].
    by rewrite <- app_assoc.
Qed.

(** X9 -- [setStore].  A payload that is not an object changes nothing.
    For an object, [setStore] writes one attribute [store/<id>] per key
    [id] of the payload other than the main store ["state"], in key order,
    with the value found under that key, and makes no other call: every
    call it adds is such a write, none is a write of [store/state].  It
    does so whether or not the client is writable. *)
Theorem setStore_writes_other_stores
    (isObj : Js.Value -> bool) (payload : Js.Value) (app : App) :
  let added :=
    if isObj payload
    then (fun id => UpdateAttributes ["store"; id] (Js.get id payload))
         <$> List.filter (fun id => negb (String.eqb id mainStoreId))
                         (object_keys payload)
    else [] in
  calls (displayer (setStore isObj payload app)) = calls (displayer app) ++ added
  /\ Forall (fun c => exists id : string,
                c = UpdateAttributes ["store"; id] (Js.get id payload)
                /\ id <> mainStoreId
                /\ In id (object_keys payload))
            added.
Proof.
  intros added. split.
  - subst added. unfold setStore. destruct (isObj payload).
    + apply setStore_keys_calls.
    + by rewrite app_nil_r.
  - subst added. destruct (isObj payload); [|constructor].
    apply Forall_fmap, Forall_forall. intros id Hid.
    apply list_elem_of_In, List.filter_In in Hid. destruct Hid as [Hkey Hid].
    exists id. split; [done|]. split; [|done].
    intros ->. by rewrite String.eqb_refl in Hid.
Qed.

Lemma setStore_writes_other_stores_witness :
  calls (displayer
           (setStore (fun v => match v with Js.VObject _ => true | _ => false end)
              (Js.VObject [Js.field "state" (Js.VNumber 1);
                           Js.field "cursor" (Js.VNumber 2);
                           Js.field "notes" (Js.VString "n")])
              (Samples.page_app false None)))
  = [UpdateAttributes ["store"; "cursor"] (Js.VNumber 2);
     UpdateAttributes ["store"; "notes"] (Js.VString "n")].
Proof.
  apply (proj1 (setStore_writes_other_stores
                  (fun v => match v with Js.VObject _ => true | _ => false end)
                  (Js.VObject [Js.field "state" (Js.VNumber 1);
                               Js.field "cursor" (Js.VNumber 2);
                               Js.field "notes" (Js.VString "n")])
                  (Samples.page_app false None))).
Defined.

End Store.

Module WhiteboardView.
Import Host EmbeddedPage.

Lemma views_record (c : Call) (app : App) :
  whiteboard_views (on_host (record c) app)
  = (whiteboard_views app
     + match c with CreateWhiteBoardView => 1 | _ => 0 end)%nat.
Proof.
  unfold whiteboard_views. simpl. rewrite List.filter_app, length_app.
  by destruct c.
Qed.

Lemma ensure_whiteboard_views (app : App) :
  whiteboard (ensure_whiteboard app) = true
  /\ whiteboard_views (ensure_whiteboard app)
     = (whiteboard_views app + if whiteboard app then 0 else 1)%nat.
Proof.
  unfold ensure_whiteboard. destruct (whiteboard app) eqn:Hw.
  - split; [done|lia].
  - split; [done|]. unfold whiteboard_views. simpl.
    by rewrite List.filter_app, length_app.
Qed.

Lemma setPage_views (page : Js.Value) (app : App) :
  whiteboard (setPage page app) = true
  /\ whiteboard_views (setPage page app)
     = (whiteboard_views app + if whiteboard app then 0 else 1)%nat.
Proof.
  destruct (ensure_whiteboard_views app) as [Hw Hv].
  unfold setPage. set (ready := ensure_whiteboard app) in *.
  destruct (Js.as_string page) as [p|]; [|done].
  destruct (isWritable ready); [|done].
  destruct (Js.truthy_string (getInitScenePath ready)) as [scenePath|]; [|done].
  destruct (room_defined ready); [|done].
  rewrite !views_record, !Nat.add_0_r.
  destruct (ScenePathType.eqb _ _); simpl.
  - unfold putScenes. by rewrite views_record, Nat.add_0_r.
  - done.
Qed.

(** X10 -- the whiteboard view is created lazily and once.  Whatever the
    pages and whatever the permissions, handling a non-empty series of
    [SetPage] messages leaves the whiteboard view created, and calls
    [createWhiteBoardView] exactly once if it did not exist before and not
    at all if it did. *)
Theorem setPage_creates_whiteboard_once (pages : list Js.Value) (app : App) :
  pages <> [] ->
  whiteboard (setPages pages app) = true
  /\ whiteboard_views (setPages pages app)
     = (whiteboard_views app + if whiteboard app then 0 else 1)%nat.
Proof.
  intros Hpages. destruct pages as [|page pages]; [done|]. clear Hpages.
  unfold setPages. simpl.
  destruct (setPage_views page app) as [Hw Hv].
  revert Hw Hv. generalize (setPage page app) as app1. intros app1 Hw Hv.
  rewrite <- Hv. clear Hv. revert app1 Hw.
  induction pages as [|q pages IH]; intros app1 Hw; simpl; [done|].
  destruct (setPage_views q app1) as [Hw' Hv']. rewrite Hw in Hv'.
  destruct (IH _ Hw') as [-> ->]. split; [done|lia].
Qed.

Lemma setPage_creates_whiteboard_once_witness :
  whiteboard_views (setPages [Js.VNumber 3; Js.VString "2"; Js.VString "5"]
                             (Samples.page_app true (Some "/init")))
  = 1%nat.
Proof.
  apply (setPage_creates_whiteboard_once
           [Js.VNumber 3; Js.VString "2"; Js.VString "5"]
           (Samples.page_app true (Some "/init"))).
  discriminate.
Defined.

End WhiteboardView.

(** ** The viewer chrome *)

Module ViewerChrome.
Import Viewer.

Lemma class_names_differ :
  wrapClassName "readonly" <> wrapClassName "preview-active"
  /\ wrapClassName "readonly" <> wrapClassName "content"
  /\ wrapClassName "readonly" <> wrapClassName "footer"
  /\ wrapClassName "preview-active" <> wrapClassName "content".
Proof. repeat split; discriminate. Qed.

Lemma new_Viewer_consistent (writable : bool) (pages : list ViewerPage) (v : Viewer) :
  new_Viewer writable pages = inr v -> consistent v.
Proof.
  unfold new_Viewer. destruct (length pages <=? 0)%nat; [done|].
  intros [= <-]. destruct class_names_differ as (H1 & H2 & H3 & H4).
  unfold consistent. simpl in *. destruct writable; simpl; repeat split; set_unfold; intuition congruence.
Qed.

Lemma setWritable_consistent (writable : bool) (v : Viewer) :
  consistent v -> consistent (setWritable writable v).
Proof.
  unfold setWritable. destruct (negb (Bool.eqb (isWritable v) writable)); [|done].
  destruct class_names_differ as (H1 & H2 & H3 & H4).
  unfold consistent, classList_toggle. simpl in *.
  intros (K1 & K2 & K3 & K4 & K5 & K6 & K7).
  destruct writable; simpl; repeat split; set_unfold; intuition congruence.
Qed.

Lemma setPageIndex_consistent (index : number) (v : Viewer) :
  consistent v -> consistent (setPageIndex index v).
Proof.
  unfold setPageIndex. destruct (isNaN index) eqn:Hnan; [done|].
  unfold consistent. simpl. tauto.
Qed.

Lemma log_consistent (e : Effect) (v : Viewer) :
  consistent v -> consistent (log e v).
Proof. done. Qed.

Lemma togglePreview_consistent (show : option bool) (v : Viewer) :
  consistent v -> consistent (togglePreview show v).
Proof.
  intros (K1 & K2 & K3 & K4 & K5 & K6 & K7).
  destruct class_names_differ as (H1 & H2 & H3 & H4).
  unfold togglePreview. simpl.
  set (b := match show with Some b => b | None => negb (isShowPreview v) end).
  assert (Hbase :
    consistent
      {| isWritable := isWritable v; pages := pages v; pageIndex := pageIndex v;
         isShowPreview := b;
         content_classList :=
           classList_toggle (wrapClassName "preview-active") b (content_classList v);
         footer_classList := footer_classList v;
         pageNumberInput_value := pageNumberInput_value v;
         pageNumberInput_disabled := pageNumberInput_disabled v;
         effects := effects v |}).
  { unfold consistent, classList_toggle. simpl in *.
    destruct b; repeat split; set_unfold; intuition congruence. }
  destruct b; [|done].
  by destruct (bool_decide _); [apply log_consistent|].
Qed.

Lemma step_consistent (v : Viewer) (op : Op) :
  consistent v -> consistent (step v op).
Proof.
  intros Hv. destruct op; simpl.
  - by apply setWritable_consistent.
  - by apply setPageIndex_consistent.
  - unfold on_preview_click. destruct (negb (isWritable v)); [done|].
    by destruct (Js.truthy_string dataset_pageIndex).
  - unfold on_previewMask_click. destruct (negb (isWritable v)); [done|].
    destruct on_mask; [|done]. by apply togglePreview_consistent.
  - unfold on_btnSidebar_click. destruct (negb (isWritable v)); [done|].
    by apply togglePreview_consistent.
  - unfold on_btnPageBack_click. by destruct (negb (isWritable v)).
  - unfold on_btnPageNext_click. by destruct (negb (isWritable v)).
  - unfold user_edits_pageNumber. destruct (pageNumberInput_disabled v) eqn:Hd; [done|].
    unfold on_pageNumberInput_change. simpl.
    assert (Hedited : forall effs,
      consistent
        {| isWritable := isWritable v; pages := pages v; pageIndex := pageIndex v;
           isShowPreview := isShowPreview v;
           content_classList := content_classList v;
           footer_classList := footer_classList v;
           pageNumberInput_value := text;
           pageNumberInput_disabled := false;
           effects := effs |}).
    { intros effs. unfold consistent in *. simpl. by rewrite Hd in Hv. }
    destruct (negb (isWritable v)); [done|].
    destruct text; [done|]. apply Hedited.
Qed.

(** X11 -- the chrome follows the state.  The constructor fails on an empty
    list of pages and only then.  For a viewer it returns, after any
    series of method calls and user events: content and footer carry the
    [readonly] class exactly when the viewer is not writable, the page
    number input is disabled exactly then, content carries the
    [preview-active] class exactly when the preview is shown, and the page
    index is never [NaN]. *)
Theorem viewer_chrome_consistent (writable : bool) (pages : list ViewerPage) :
  (pages = [] -> new_Viewer writable pages = inl "[DocsViewer] Empty pages.")
  /\ (pages <> [] ->
      exists v : Viewer,
        new_Viewer writable pages = inr v
        /\ forall ops : list Op, consistent (run v ops)).
Proof.
  split.
  - by intros ->.
  - intros Hpages.
    destruct (new_Viewer writable pages) as [msg|v] eqn:Hnew.
    { unfold new_Viewer in Hnew. by destruct pages. }
    exists v. split; [done|]. intros ops.
    pose proof (new_Viewer_consistent _ _ _ Hnew) as Hv. clear Hnew.
    revert v Hv. induction ops as [|op ops IH]; intros v Hv; [done|].
    apply (IH (step v op)). by apply step_consistent.
Qed.

Lemma viewer_chrome_consistent_witness :
  exists v : Viewer,
    new_Viewer true Samples.two_pages = inr v
    /\ forall ops : list Op, consistent (run v ops).
Proof.
  apply (proj2 (viewer_chrome_consistent true Samples.two_pages)).
  discriminate.
Defined.

End ViewerChrome.

Module ViewerEvents.
Import Viewer.

Lemma user_step_readonly (v : Viewer) (op : Op) :
  isWritable v = false ->
  pageNumberInput_disabled v = true ->
  from_user op = true ->
  step v op = v.
Proof.
  intros Hw Hd Hop. destruct op; try discriminate; simpl.
  - unfold on_preview_click. by rewrite Hw.
  - unfold on_previewMask_click. by rewrite Hw.
  - unfold on_btnSidebar_click. by rewrite Hw.
  - unfold on_btnPageBack_click. by rewrite Hw.
  - unfold on_btnPageNext_click. by rewrite Hw.
  - unfold user_edits_pageNumber. by rewrite Hd.
Qed.

(** X12 -- a read-only viewer ignores the user.  On a viewer whose chrome
    agrees with its state and which is not writable, any series of clicks
    on thumbnails, mask, sidebar button, back and next buttons and of
    edits of the page number leaves the viewer exactly as it was: no
    [onNewPageIndex] call, the preview neither opened nor closed. *)
Theorem readonly_viewer_ignores_user (v : Viewer) (ops : list Op) :
  consistent v ->
  isWritable v = false ->
  Forall (fun op => from_user op = true) ops ->
  run v ops = v.
Proof.
  intros (_ & _ & Hd & _) Hw Hops. rewrite Hw in Hd. simpl in Hd.
  induction Hops as [|op ops Hop Hops IH]; [done|].
  change (run v (op :: ops)) with (run (step v op) ops).
  by rewrite user_step_readonly.
Qed.

Lemma readonly_viewer_ignores_user_witness :
  run (Samples.viewer false)
      [ClickPageNext; ClickPreview (Some "0"); ClickSidebar; EditPageNumber "7"]
  = Samples.viewer false.
Proof.
  apply (readonly_viewer_ignores_user (Samples.viewer false)).
  - by apply (ViewerChrome.new_Viewer_consistent false Samples.two_pages).
  - reflexivity.
  - by repeat constructor.
Defined.

Lemma togglePreview_pageIndex (show : option bool) (v : Viewer) :
  pageIndex (togglePreview show v) = pageIndex v
  /\ isWritable (togglePreview show v) = isWritable v.
Proof.
  unfold togglePreview. simpl.
  destruct (match show with Some b => b | None => negb (isShowPreview v) end); [|done].
  by destruct (bool_decide _).
Qed.

(** Only [setPageIndex] with a number changes the page index. *)
Lemma step_pageIndex (v : Viewer) (op : Op) :
  pageIndex (step v op)
  = match op with
    | SetPageIndex index => if isNaN index then pageIndex v else index
    | _ => pageIndex v
    end.
Proof.
  destruct op; simpl.
  - unfold setWritable. by destruct (negb _).
  - unfold setPageIndex. by destruct (isNaN index).
  - unfold on_preview_click. destruct (negb _); [done|].
    by destruct (Js.truthy_string _).
  - unfold on_previewMask_click. destruct (negb _); [done|].
    destruct on_mask; [|done]. apply togglePreview_pageIndex.
  - unfold on_btnSidebar_click. destruct (negb _); [done|].
    apply togglePreview_pageIndex.
  - unfold on_btnPageBack_click. by destruct (negb _).
  - unfold on_btnPageNext_click. by destruct (negb _).
  - unfold user_edits_pageNumber. destruct (pageNumberInput_disabled v); [done|].
    unfold on_pageNumberInput_change. simpl. destruct (negb _); [done|].
    by destruct text.
Qed.

Lemma last_number_cons (x : number) (l : list number) (d : number) :
  List.last (x :: l) d = List.last l x.
Proof.
  revert x d. induction l as [|y l IH]; intros x d; [done|].
  change (List.last (y :: l) d = List.last (y :: l) x).
  by rewrite !IH.
Qed.

(** X13 -- the page index follows [setPageIndex] and nothing else.  After
    any series of method calls and user events the page index is the last
    number handed to [setPageIndex] ([NaN] being ignored), and the index the
    viewer started with when there was none: clicking back, next or a
    thumbnail and editing the page number only ask for a page, they never
    move the viewer. *)
Theorem pageIndex_follows_setPageIndex (ops : list Op) :
  forall v : Viewer,
    pageIndex (run v ops) = List.last (indices_set ops) (pageIndex v).
Proof.
  induction ops as [|op ops IH]; intros v; [done|].
  change (run v (op :: ops)) with (run (step v op) ops).
  rewrite IH, step_pageIndex.
  destruct op; try done.
  simpl. destruct (isNaN index); [done|]. by rewrite last_number_cons.
Qed.

(** X14 -- repeated clicks ask for the same page.  On a writable viewer,
    [n] clicks on the next button without a [setPageIndex] in between call
    [onNewPageIndex] [n] times with the same argument, the current index
    plus one, not clamped to the number of pages; the viewer's own index
    and input stay as they were. *)
Theorem next_clicks_request_same_page (v : Viewer) (n : nat) :
  isWritable v = true ->
  effects (run v (repeat ClickPageNext n))
  = effects v ++ repeat (NewPageIndex (Index (plus (pageIndex v) 1))) n
  /\ pageIndex (run v (repeat ClickPageNext n)) = pageIndex v
  /\ pageNumberInput_value (run v (repeat ClickPageNext n)) = pageNumberInput_value v.
Proof.
  revert v. induction n as [|n IH]; intros v Hw.
  - simpl. by rewrite app_nil_r.
  - change (run v (repeat ClickPageNext (S n)))
      with (run (on_btnPageNext_click v) (repeat ClickPageNext n)).
    unfold on_btnPageNext_click. rewrite Hw. simpl negb. cbv iota.
    destruct (IH (onNewPageIndex (Index (plus (pageIndex v) 1)) v) Hw)
      as (-> & -> & ->).
    simpl. by rewrite <- app_assoc.
Qed.

Lemma next_clicks_request_same_page_witness :
  effects (run (Samples.viewer true) (repeat ClickPageNext 3))
  = [NewPageIndex (Index (Int 1)); NewPageIndex (Index (Int 1));
     NewPageIndex (Index (Int 1))].
Proof.
  apply (next_clicks_request_same_page (Samples.viewer true) 3).
  reflexivity.
Defined.

Lemma preview_page_class_inj (i j : Z) :
  wrapClassName ("preview-page-" +:+ Js.Number_toString i)
  = wrapClassName ("preview-page-" +:+ Js.Number_toString j) ->
  i = j.
Proof.
  unfold wrapClassName. intros H.
  do 2 apply String.app_inj in H. by apply (inj pretty) in H.
Qed.

Lemma preview_page_class_exists (v : Viewer) (n : Z) :
  wrapClassName ("preview-page-" +:+ Js.Number_toString n) ∈ preview_page_classes v
  <-> 0 <= n < Z.of_nat (length (pages v)).
Proof.
  unfold preview_page_classes. rewrite list_elem_of_fmap. split.
  - intros (i & Heq & Hi). apply preview_page_class_inj in Heq. subst i.
    apply elem_of_seqZ in Hi. lia.
  - intros Hn. exists n. split; [done|]. apply elem_of_seqZ. lia.
Qed.

(** X15 -- opening the preview scrolls to the current thumbnail, if there is
    one.  With page index [n], [togglePreview(true)] shows the preview and
    asks to scroll to the thumbnail of page [n] exactly when [n] is an
    index of [pages]; for an index outside (which [setPageIndex] accepts
    unchecked) it shows the preview and scrolls nowhere.
    [togglePreview(false)] hides the preview and never scrolls. *)
Theorem togglePreview_scrolls_to_current (v : Viewer) (n : Z) :
  pageIndex v = Int n ->
  (isShowPreview (togglePreview (Some true) v) = true
   /\ effects (togglePreview (Some true) v)
      = effects v
        ++ (if bool_decide (0 <= n < Z.of_nat (length (pages v)))
            then [ScrollPreviewTo
                    (wrapClassName ("preview-page-" +:+ Js.Number_toString n))]
            else []))
  /\ (isShowPreview (togglePreview (Some false) v) = false
      /\ effects (togglePreview (Some false) v) = effects v).
Proof.
  intros Hn. split; [|done].
  unfold togglePreview. simpl. rewrite Hn. simpl.
  set (v1 := Build_Viewer _ _ _ _ _ _ _ _ _).
  assert (Hiff := preview_page_class_exists v1 n).
  change (pages v1) with (pages v) in Hiff.
  destruct (bool_decide _) eqn:Hfound.
  - apply bool_decide_eq_true in Hfound. apply Hiff in Hfound.
    rewrite bool_decide_eq_true_2 by done. done.
  - apply bool_decide_eq_false in Hfound.
    rewrite bool_decide_eq_false_2 by (intros Hin; by apply Hfound, Hiff).
    split; [done|]. by rewrite app_nil_r.
Qed.

Lemma togglePreview_scrolls_to_current_witness :
  effects (togglePreview (Some true) (setPageIndex (Int 1) (Samples.viewer true)))
  = [ScrollPreviewTo "netless-app-docs-viewer-preview-page-1"]
  /\ effects (togglePreview (Some true) (setPageIndex (Int 5) (Samples.viewer true)))
     = [].
Proof.
  split.
  - apply (proj1 (togglePreview_scrolls_to_current
                    (setPageIndex (Int 1) (Samples.viewer true)) 1 eq_refl)).
  - apply (proj1 (togglePreview_scrolls_to_current
                    (setPageIndex (Int 5) (Samples.viewer true)) 5 eq_refl)).
Defined.

End ViewerEvents.
